(** * LTI aircraft model and reward functions of thesis_pilot

    A shallow embedding of [src/models/aircraft_model.py] and
    [src/models/rewards.py].

    Numbers.  The aircraft description holds real numbers (Python floats).
    They are modelled by exact rationals [Q]: rounding, overflow and
    non-finite values are outside this model.  Numeric equality is [Qeq],
    written [==].

    Effects.  Python's true division raises [ZeroDivisionError] on a zero
    divisor, attribute access on [None] raises [AttributeError], indexing an
    empty list raises [IndexError].  The computations below live in a small
    exception monad that also counts the divisions that were carried out, so
    that "before any division" can be stated. *)

From Stdlib Require Import String PeanoNat QArith Lqa Lia Bool List.
Import ListNotations.

Open Scope Q_scope.

(** ** Python exceptions and the computation monad *)

Inductive exn : Type :=
| ZeroDivisionError
| AttributeError
| IndexError
| ValueError (msg : string)
| UserError (class_name : string).

(** Error kinds that the specification names; the source defines no
    exception class of its own. *)
Definition SingularModelError : exn := UserError "SingularModelError".
Definition ConfigurationError : exn := UserError "ConfigurationError".
Definition DimensionError : exn := UserError "DimensionError".

Inductive result (A : Type) : Type :=
| Ok (a : A)
| Raise (e : exn).
Arguments Ok {A} a.
Arguments Raise {A} e.

(** A computation takes the number of divisions carried out so far and
    returns its outcome with the updated number. *)
Definition py (A : Type) : Type := nat -> result A * nat.

Definition ret {A} (a : A) : py A := fun n => (Ok a, n).

Definition raise {A} (e : exn) : py A := fun n => (Raise e, n).

Definition bind {A B} (m : py A) (f : A -> py B) : py B :=
  fun n =>
    match m n with
    | (Ok a, n') => f a n'
    | (Raise e, n') => (Raise e, n')
    end.

Definition lift {A} (r : result A) : py A := fun n => (r, n).

Notation "x <- m ;; k" := (bind m (fun x => k))
  (at level 61, m at next level, right associativity).

(** Python's [x / y] on floats: a zero divisor raises, anything else
    yields the quotient and counts as one division carried out. *)
Definition truediv (x y : Q) : py Q :=
  fun n =>
    if Qeq_bool y 0 then (Raise ZeroDivisionError, n)
    else (Ok (x / y), S n).

Notation "x // y" := (truediv x y) (at level 40, left associativity).

Definition run {A} (m : py A) : result A * nat := m 0%nat.
(** Outcome of a computation started afresh. *)
Definition value {A} (m : py A) : result A := fst (run m).
(** Number of divisions carried out by a computation started afresh. *)
Definition divisions {A} (m : py A) : nat := snd (run m).

(** [obj.attr] where [obj] may be [None]. *)
Definition attr {A} (o : option A) : py A :=
  match o with
  | Some x => ret x
  | None => raise AttributeError
  end.

(** ** Data model *)

(** Modelled from the spec: the loader module [data.load_aircraft_data]
    (functions [load_aircraft], class [AircraftData]) is not part of the
    sources at hand.  The records follow section 3 of the specification and
    the attributes the builders read. *)
Module Cx.
Record t : Type := mk { u : Q; a : Q; o : Q; de : Q }.
End Cx.

Module Cz.
Record t : Type := mk { u : Q; a : Q; a_dot : Q; o : Q; q : Q; de : Q }.
End Cz.

Module Cm.
Record t : Type := mk { u : Q; a : Q; a_dot : Q; o : Q; q : Q; de : Q }.
End Cm.

Module Cy.
Record t : Type := mk { b : Q; p : Q; r : Q; dr : Q }.
End Cy.

Module Cl.
Record t : Type := mk { b : Q; p : Q; r : Q; da : Q; dr : Q }.
End Cl.

Module Cn.
Record t : Type := mk { b : Q; p : Q; r : Q; da : Q; dr : Q }.
End Cn.

Record SymmetricData : Type := mkSymmetricData {
  c_bar : Q;
  mu_c : Q;
  ky_2 : Q;
  cx : Cx.t;
  cz : Cz.t;
  cm : Cm.t
}.

Record AsymmetricData : Type := mkAsymmetricData {
  b : Q;
  mu_b : Q;
  c_l : Q;
  kx_2 : Q;
  kz_2 : Q;
  kxz : Q;
  cy : Cy.t;
  cl : Cl.t;
  cn : Cn.t
}.

Record AircraftData : Type := mkAircraftData {
  v : Q;
  symmetric : option SymmetricData;
  asymmetric : option AsymmetricData
}.

(** A numpy array given by its rows. *)
Definition Matrix : Type := list (list Q).

(** [m.shape[0]] *)
Definition shape0 (m : Matrix) : nat := List.length m.

(** [m.shape[1]]; an array without rows is one-dimensional and has no
    second axis. *)
Definition shape1 (m : Matrix) : py nat :=
  match m with
  | [] => raise IndexError
  | row :: _ => ret (List.length row)
  end.

(** Entry-wise numeric equality of arrays. *)
Definition mat_eq (m1 m2 : Matrix) : Prop := Forall2 (Forall2 Qeq) m1 m2.

(** [np.eye(n)] *)
Definition eye (n : nat) : Matrix :=
  map (fun i => map (fun j => if Nat.eqb i j then 1 else 0) (seq 0 n)) (seq 0 n).

(** [np.zeros((n, m))] *)
Definition zeros (n m : nat) : Matrix := repeat (repeat 0 m) n.

(** ** Symmetric model *)

Module Symmetric.

Definition x_names : list string := ["u_hat"; "alpha"; "theta"; "q_cv"]%string.
Definition u_names : list string := ["de"]%string.

Definition build_a (data : AircraftData) : py Matrix :=
  let v := data.(v) in
  sym <- attr data.(symmetric) ;;
  let c_bar := sym.(c_bar) in
  let mu_c := sym.(mu_c) in
  let ky_2 := sym.(ky_2) in
  let cx := sym.(cx) in
  let cz := sym.(cz) in
  let cm := sym.(cm) in
  v_c <- v // c_bar ;;
  let mu_c_cz_a := 2 * mu_c - cz.(Cz.a_dot) in
  cm_a_mu_c <- cm.(Cm.a_dot) // (2 * mu_c - cz.(Cz.a_dot)) ;;
  let mu_c_ky_2 := 2 * mu_c * ky_2 in
  xu <- (v_c * cx.(Cx.u)) // (2 * mu_c) ;;
  xa <- (v_c * cx.(Cx.a)) // (2 * mu_c) ;;
  xt <- (v_c * cz.(Cz.o)) // (2 * mu_c) ;;
  zu <- (v_c * cz.(Cz.u)) // mu_c_cz_a ;;
  za <- (v_c * cz.(Cz.a)) // mu_c_cz_a ;;
  zt <- (v_c * cx.(Cx.o)) // mu_c_cz_a ;;
  zq <- (v_c * (2 * mu_c + cz.(Cz.q))) // mu_c_cz_a ;;
  mu <- (v_c * (cm.(Cm.u) + cz.(Cz.u) * cm_a_mu_c)) // mu_c_ky_2 ;;
  ma <- (v_c * (cm.(Cm.a) + cz.(Cz.a) * cm_a_mu_c)) // mu_c_cz_a ;;
  mt <- (- v_c * (cx.(Cx.o) * cm_a_mu_c)) // mu_c_ky_2 ;;
  mq_in <- (cm.(Cm.a_dot) * (2 * mu_c + cz.(Cz.q))) // mu_c_cz_a ;;
  mq <- (v_c * (cm.(Cm.q) + mq_in)) // mu_c_cz_a ;;
  ret [ [xu; xa; xt; 0];
        [zu; za; zt; zq];
        [0; 0; 0; v_c];
        [mu; ma; mt; mq] ].

Definition build_b (data : AircraftData) : py Matrix :=
  let v := data.(v) in
  sym <- attr data.(symmetric) ;;
  let c_bar := sym.(c_bar) in
  let mu_c := sym.(mu_c) in
  let ky_2 := sym.(ky_2) in
  let cx := sym.(cx) in
  let cz := sym.(cz) in
  let cm := sym.(cm) in
  v_c <- v // c_bar ;;
  let mu_c_cz_a := 2 * mu_c - cz.(Cz.a_dot) in
  x_de <- (v_c * cx.(Cx.de)) // (2 * mu_c) ;;
  z_de <- (v_c * cz.(Cz.de)) // mu_c_cz_a ;;
  m_in <- (cz.(Cz.de) * cm.(Cm.a_dot)) // mu_c_cz_a ;;
  m_de <- (v_c * (cm.(Cm.de) + m_in)) // (2 * mu_c * ky_2) ;;
  ret [ [x_de];
        [z_de];
        [0];
        [m_de] ].

End Symmetric.

(** ** Asymmetric model *)

Module Asymmetric.

Definition x_names : list string := ["beta"; "phi"; "pb_2v"; "rb_2v"]%string.
Definition u_names : list string := ["da"; "dr"]%string.

(** The chained assignments [lp = v_b = ...] and [lr = v_b = ...] of the
    source rebind [v_b]; the later uses of [v_b] see the rebound value. *)
Definition build_a (data : AircraftData) : py Matrix :=
  let v := data.(v) in
  asym <- attr data.(asymmetric) ;;
  let b := asym.(b) in
  let mu_b := asym.(mu_b) in
  let c_l := asym.(c_l) in
  let kx_2 := asym.(kx_2) in
  let kz_2 := asym.(kz_2) in
  let kxz := asym.(kxz) in
  let cy := asym.(cy) in
  let cl := asym.(cl) in
  let cn := asym.(cn) in
  v_b <- v // b ;;
  let mu_b_k := 4 * mu_b * (kx_2 * kz_2 - kxz ^ 2) in
  yb <- (v_b * cy.(Cy.b)) // (2 * mu_b) ;;
  yphi <- (v_b * c_l) // (2 * mu_b) ;;
  yp <- (v_b * cy.(Cy.p)) // (2 * mu_b) ;;
  yr <- (v_b * (cy.(Cy.r) - 4 * mu_b)) // (2 * mu_b) ;;
  lb <- (v_b * (cl.(Cl.b) * kz_2 + cn.(Cn.b) * kxz)) // mu_b_k ;;
  lp <- (cl.(Cl.p) * kz_2 + cn.(Cn.p) * kxz) // mu_b_k ;;
  let v_b := lp in
  lr <- (cl.(Cl.r) * kz_2 + cn.(Cn.r) * kxz) // mu_b_k ;;
  let v_b := lr in
  nb <- (v_b * (cl.(Cl.b) * kxz + cn.(Cn.b) * kx_2)) // mu_b_k ;;
  n_p <- (v_b * (cl.(Cl.p) * kxz + cn.(Cn.p) * kx_2)) // mu_b_k ;;
  nr <- (v_b * (cl.(Cl.r) * kxz + cn.(Cn.r) * kx_2)) // mu_b_k ;;
  ret [ [yb; yphi; yp; yr];
        [0; 0; 2 * v_b; 0];
        [lb; 0; lp; lr];
        [nb; 0; n_p; nr] ].

Definition build_b (data : AircraftData) : py Matrix :=
  let v := data.(v) in
  asym <- attr data.(asymmetric) ;;
  let mu_b := asym.(mu_b) in
  let kx_2 := asym.(kx_2) in
  let kz_2 := asym.(kz_2) in
  let kxz := asym.(kxz) in
  let cy := asym.(cy) in
  let cl := asym.(cl) in
  let cn := asym.(cn) in
  v_b <- v // mu_b ;;
  let mu_b_k := 4 * mu_b * (kx_2 * kz_2 - kxz ^ 2) in
  y_dr <- (v_b * cy.(Cy.dr)) // (2 * mu_b) ;;
  l_da <- (v_b * (cl.(Cl.da) * kz_2 + cn.(Cn.da) * kxz)) // mu_b_k ;;
  l_dr <- (v_b * (cl.(Cl.dr) * kz_2 + cn.(Cn.dr) * kxz)) // mu_b_k ;;
  n_da <- (v_b * (cl.(Cl.da) * kxz + cn.(Cn.da) * kx_2)) // mu_b_k ;;
  n_dr <- (v_b * (cl.(Cl.dr) * kxz + cn.(Cn.dr) * kx_2)) // mu_b_k ;;
  ret [ [0; y_dr];
        [0; 0];
        [l_da; l_dr];
        [n_da; n_dr] ].

End Asymmetric.

(** ** State-space object *)

(** The base class [control.StateSpace] belongs to an external package.
    Its constructor and its [set_inputs], [set_outputs] and [set_states]
    methods are taken as they come: each either raises or updates the
    part of the object the package owns ([ct_state]). *)
Record ControlLib : Type := mkControlLib {
  ct_state : Type;
  ct_init : Matrix -> Matrix -> Matrix -> Matrix -> result ct_state;
  set_inputs : ct_state -> list string -> result ct_state;
  set_outputs : ct_state -> list string -> result ct_state;
  set_states : ct_state -> list string -> result ct_state
}.

Module StateSpace.

(** The attributes [__init__] assigns, the matrices [C] and [D] it hands
    to the base class, and the part of the object owned by the base
    class. *)
Record t (L : ControlLib) : Type := mk {
  a : Matrix;
  b : Matrix;
  x_names : list string;
  u_names : list string;
  C : Matrix;
  D : Matrix;
  base : ct_state L
}.
Arguments mk {L}.
Arguments a {L}.
Arguments b {L}.
Arguments x_names {L}.
Arguments u_names {L}.
Arguments C {L}.
Arguments D {L}.
Arguments base {L}.

Definition __init__ (L : ControlLib) (a b : Matrix)
    (x_names u_names : list string) : py (t L) :=
  let n := shape0 a in
  let c := eye n in
  m <- shape1 b ;;
  let d := zeros n m in
  s <- lift (ct_init L a b c d) ;;
  s <- lift (set_inputs L s u_names) ;;
  s <- lift (set_outputs L s x_names) ;;
  s <- lift (set_states L s x_names) ;;
  ret (mk a b x_names u_names c d s).

End StateSpace.

(** [Symmetric.__init__] *)
Definition Symmetric__init__ (L : ControlLib) (data : AircraftData)
    : py (StateSpace.t L) :=
  let x_names := Symmetric.x_names in
  let u_names := Symmetric.u_names in
  a <- Symmetric.build_a data ;;
  b <- Symmetric.build_b data ;;
  StateSpace.__init__ L a b x_names u_names.

(** [Asymmetric.__init__] *)
Definition Asymmetric__init__ (L : ControlLib) (data : AircraftData)
    : py (StateSpace.t L) :=
  let x_names := Asymmetric.x_names in
  let u_names := Asymmetric.u_names in
  a <- Asymmetric.build_a data ;;
  b <- Asymmetric.build_b data ;;
  StateSpace.__init__ L a b x_names u_names.

(** ** Aircraft *)

Module Aircraft.

Record t (L : ControlLib) : Type := mk {
  filename : string;
  data : AircraftData;
  sym : option (StateSpace.t L);
  asym : option (StateSpace.t L)
}.
Arguments mk {L}.
Arguments filename {L}.
Arguments data {L}.
Arguments sym {L}.
Arguments asym {L}.

(** Truth value of an optional data block: [None] is false, a data
    object is true. *)
Definition truthy {A} (o : option A) : bool :=
  match o with Some _ => true | None => false end.

(** [load_aircraft] is the external loader; it is a parameter here. *)
Definition __init__ (L : ControlLib)
    (load_aircraft : string -> py AircraftData) (filename : string)
    : py (t L) :=
  data <- load_aircraft filename ;;
  let sym := None in
  let asym := None in
  sym <- (if truthy data.(symmetric)
          then s <- Symmetric__init__ L data ;; ret (Some s)
          else ret sym) ;;
  asym <- (if truthy data.(asymmetric)
           then s <- Asymmetric__init__ L data ;; ret (Some s)
           else ret asym) ;;
  ret (mk filename data sym asym).

End Aircraft.

(** ** Rewards *)

(** Modelled from the spec: the environment class that is handed to the
    reward functions as [self] is not part of the sources at hand; the
    record holds the three attributes the reward functions read (the
    trajectory window of section 4.5). *)
Module Env.
Record t : Type := mk {
  reward_scale : Q;
  sq_error : list Q;
  actions : list (list Q)
}.
End Env.

(** [l[-1]] *)
Definition item_last (l : list Q) : py Q :=
  match l with
  | [] => raise IndexError
  | _ :: _ => ret (last l 0)
  end.

(** [l[-2:]] *)
Definition slice_last2 {A} (l : list A) : list A :=
  skipn (List.length l - 2) l.

(** Entry-wise [r1 - r0] of two rows of one array; rows of different
    lengths do not form an array. *)
Fixpoint sub_rows (r1 r0 : list Q) : py (list Q) :=
  match r1, r0 with
  | [], [] => ret []
  | x :: r1', y :: r0' => d <- sub_rows r1' r0' ;; ret ((x - y) :: d)
  | _, _ => raise (ValueError "inhomogeneous shape")
  end.

(** [np.diff(rows, axis=0)] *)
Fixpoint np_diff (rows : list (list Q)) : py (list (list Q)) :=
  match rows with
  | r0 :: rest =>
      match rest with
      | r1 :: _ =>
          d <- sub_rows r1 r0 ;;
          ds <- np_diff rest ;;
          ret (d :: ds)
      | [] => ret []
      end
  | [] => ret []
  end.

(** [np.sum(m)] *)
Definition np_sum (m : list (list Q)) : Q :=
  fold_right Qplus 0 (concat m).

(** [m ** 2] on an array *)
Definition np_square (m : list (list Q)) : list (list Q) :=
  map (map (fun x => x ^ 2)) m.

Module Rewards.

Definition sq_error (self : Env.t) : py Q :=
  let s := self.(Env.reward_scale) in
  e <- item_last self.(Env.sq_error) ;;
  ret (- s * e).

Definition sq_error_da (self : Env.t) : py Q :=
  e <- item_last self.(Env.sq_error) ;;
  d <- np_diff (slice_last2 self.(Env.actions)) ;;
  ret (- (e + np_sum (np_square d))).

End Rewards.

Definition get_reward (reward_type : string) : py (Env.t -> py Q) :=
  if String.eqb reward_type "sq_error" then ret Rewards.sq_error
  else if String.eqb reward_type "sq_error_da" then ret Rewards.sq_error_da
  else raise (ValueError ("Reward type " ++ reward_type ++ " not found")).

(** Scoring a trajectory window: the function selected by [get_reward]
    applied to the environment. *)
Definition score (kind : string) (window : Env.t) : py Q :=
  f <- get_reward kind ;;
  f window.

(** ** Derived scalars of the builders *)

(** [mu_c_cz_a = 2 * mu_c - cz.a_dot] *)
Definition mu_c_cz_a (s : SymmetricData) : Q := 2 * mu_c s - Cz.a_dot (cz s).

(** [mu_c_ky_2 = 2 * mu_c * ky_2] *)
Definition mu_c_ky_2 (s : SymmetricData) : Q := 2 * mu_c s * ky_2 s.

(** [mu_b_k = 4 * mu_b * (kx_2 * kz_2 - kxz ** 2)] *)
Definition mu_b_k (s : AsymmetricData) : Q :=
  4 * mu_b s * (kx_2 s * kz_2 s - kxz s ^ 2).

(** ** The tables of the specification

    These follow the words of sections 4.2 and 4.3 of the specification,
    not the source; they are what the builders are compared with.  [/] is
    the total division of [Q]. *)

Definition table_4_2_A (v : Q) (s : SymmetricData) : Matrix :=
  let v_c := v / c_bar s in
  let mu_c := mu_c s in
  let cx := cx s in
  let cz := cz s in
  let cm := cm s in
  let mu_c_cz_a := mu_c_cz_a s in
  let cm_a_mu_c := Cm.a_dot cm / mu_c_cz_a in
  let mu_c_ky_2 := mu_c_ky_2 s in
  let mu := v_c * (Cm.u cm + Cz.u cz * cm_a_mu_c) / mu_c_ky_2 in
  let ma := v_c * (Cm.a cm + Cz.a cz * cm_a_mu_c) / mu_c_cz_a in
  let mt := - v_c * Cx.o cx * cm_a_mu_c / mu_c_ky_2 in
  let mq := v_c * (Cm.q cm + Cm.a_dot cm * (2 * mu_c + Cz.q cz) / mu_c_cz_a)
            / mu_c_cz_a in
  [ [v_c * Cx.u cx / (2 * mu_c); v_c * Cx.a cx / (2 * mu_c);
     v_c * Cz.o cz / (2 * mu_c); 0];
    [v_c * Cz.u cz / mu_c_cz_a; v_c * Cz.a cz / mu_c_cz_a;
     v_c * Cx.o cx / mu_c_cz_a; v_c * (2 * mu_c + Cz.q cz) / mu_c_cz_a];
    [0; 0; 0; v_c];
    [mu; ma; mt; mq] ].

(** Section 4.3, matrix A, with [v_b = v / b] throughout and the [n] row
    obtained from the [l] row by putting [kx_2] for [kz_2]. *)
Definition table_4_3_A (v : Q) (s : AsymmetricData) : Matrix :=
  let v_b := v / b s in
  let mu_b := mu_b s in
  let kx_2 := kx_2 s in
  let kz_2 := kz_2 s in
  let kxz := kxz s in
  let cy := cy s in
  let cl := cl s in
  let cn := cn s in
  let mu_b_k := mu_b_k s in
  [ [v_b * Cy.b cy / (2 * mu_b); v_b * c_l s / (2 * mu_b);
     v_b * Cy.p cy / (2 * mu_b); v_b * (Cy.r cy - 4 * mu_b) / (2 * mu_b)];
    [0; 0; 2 * v_b; 0];
    [v_b * (Cl.b cl * kz_2 + Cn.b cn * kxz) / mu_b_k; 0;
     v_b * (Cl.p cl * kz_2 + Cn.p cn * kxz) / mu_b_k;
     v_b * (Cl.r cl * kz_2 + Cn.r cn * kxz) / mu_b_k];
    [v_b * (Cl.b cl * kx_2 + Cn.b cn * kxz) / mu_b_k; 0;
     v_b * (Cl.p cl * kx_2 + Cn.p cn * kxz) / mu_b_k;
     v_b * (Cl.r cl * kx_2 + Cn.r cn * kxz) / mu_b_k] ].

(** Section 4.3, matrix B, with the ratio [v / mu_b] and the [n] row
    obtained from the [l] row by putting [kx_2] for [kz_2]. *)
Definition table_4_3_B (v : Q) (s : AsymmetricData) : Matrix :=
  let v_b := v / mu_b s in
  let mu_b := mu_b s in
  let kx_2 := kx_2 s in
  let kz_2 := kz_2 s in
  let kxz := kxz s in
  let cy := cy s in
  let cl := cl s in
  let cn := cn s in
  let mu_b_k := mu_b_k s in
  [ [0; v_b * Cy.dr cy / (2 * mu_b)];
    [0; 0];
    [v_b * (Cl.da cl * kz_2 + Cn.da cn * kxz) / mu_b_k;
     v_b * (Cl.dr cl * kz_2 + Cn.dr cn * kxz) / mu_b_k];
    [v_b * (Cl.da cl * kx_2 + Cn.da cn * kxz) / mu_b_k;
     v_b * (Cl.dr cl * kx_2 + Cn.dr cn * kxz) / mu_b_k] ].

(** The [n] row of B as the source has it: [kxz] goes with the [cl]
    derivative and [kx_2] with the [cn] derivative. *)
Definition source_B (v : Q) (s : AsymmetricData) : Matrix :=
  let v_b := v / mu_b s in
  let mu_b := mu_b s in
  let kx_2 := kx_2 s in
  let kz_2 := kz_2 s in
  let kxz := kxz s in
  let cy := cy s in
  let cl := cl s in
  let cn := cn s in
  let mu_b_k := mu_b_k s in
  [ [0; v_b * Cy.dr cy / (2 * mu_b)];
    [0; 0];
    [v_b * (Cl.da cl * kz_2 + Cn.da cn * kxz) / mu_b_k;
     v_b * (Cl.dr cl * kz_2 + Cn.dr cn * kxz) / mu_b_k];
    [v_b * (Cl.da cl * kxz + Cn.da cn * kx_2) / mu_b_k;
     v_b * (Cl.dr cl * kxz + Cn.dr cn * kx_2) / mu_b_k] ].

(** Matrix A of the asymmetric model as far as the source fixes it by its
    formulas: the [beta] row and [lb] carry [v / b]; the roll-rate entry of
    the [phi] row and the [n] row share one scaling factor [scale]; in the
    [n] row [kxz] goes with the [cl] derivative and [kx_2] with the [cn]
    derivative; [lp] and [lr] are left open. *)
Definition design_A (v : Q) (s : AsymmetricData) (scale lp lr : Q) : Matrix :=
  let v_b := v / b s in
  let mu_b := mu_b s in
  let kx_2 := kx_2 s in
  let kz_2 := kz_2 s in
  let kxz := kxz s in
  let cy := cy s in
  let cl := cl s in
  let cn := cn s in
  let mu_b_k := mu_b_k s in
  [ [v_b * Cy.b cy / (2 * mu_b); v_b * c_l s / (2 * mu_b);
     v_b * Cy.p cy / (2 * mu_b); v_b * (Cy.r cy - 4 * mu_b) / (2 * mu_b)];
    [0; 0; 2 * scale; 0];
    [v_b * (Cl.b cl * kz_2 + Cn.b cn * kxz) / mu_b_k; 0; lp; lr];
    [scale * (Cl.b cl * kxz + Cn.b cn * kx_2) / mu_b_k; 0;
     scale * (Cl.p cl * kxz + Cn.p cn * kx_2) / mu_b_k;
     scale * (Cl.r cl * kxz + Cn.r cn * kx_2) / mu_b_k] ].

(** An array has [r] rows of [c] entries each. *)
Definition is_shape (r c : nat) (m : Matrix) : Prop :=
  List.length m = r /\ Forall (fun row => List.length row = c) m.

(** The base class accepts the four calls of [StateSpace.__init__] and
    ends in state [s]. *)
Definition base_accepts (L : ControlLib) (a b c d : Matrix)
    (x_names u_names : list string) (s : ct_state L) : Prop :=
  exists s0 s1 s2,
    ct_init L a b c d = Ok s0
    /\ set_inputs L s0 u_names = Ok s1
    /\ set_outputs L s1 x_names = Ok s2
    /\ set_states L s2 x_names = Ok s.

(** ** Sample inputs *)

Definition sym_sample : SymmetricData :=
  mkSymmetricData 2 1 (1 # 2)
    (Cx.mk 1 2 3 4) (Cz.mk 1 2 1 3 4 5) (Cm.mk 1 2 3 4 5 6).

(** As [sym_sample], with a zero reference chord. *)
Definition sym_zero_chord : SymmetricData :=
  mkSymmetricData 0 1 (1 # 2)
    (Cx.mk 1 2 3 4) (Cz.mk 1 2 1 3 4 5) (Cm.mk 1 2 3 4 5 6).

(** As [sym_sample], with [cz.a_dot = 2 * mu_c]. *)
Definition sym_singular : SymmetricData :=
  mkSymmetricData 2 1 (1 # 2)
    (Cx.mk 1 2 3 4) (Cz.mk 1 2 2 3 4 5) (Cm.mk 1 2 3 4 5 6).

Definition asym_sample : AsymmetricData :=
  mkAsymmetricData 2 1 1 2 1 1
    (Cy.mk 1 2 3 4) (Cl.mk 1 2 3 4 5) (Cn.mk 2 3 6 7 11).

(** As [asym_sample], with [kx_2 * kz_2 = kxz ** 2]. *)
Definition asym_singular : AsymmetricData :=
  mkAsymmetricData 2 1 1 1 1 1
    (Cy.mk 1 2 3 4) (Cl.mk 1 2 3 4 5) (Cn.mk 2 3 6 7 11).

Definition data_sample : AircraftData :=
  mkAircraftData 4 (Some sym_sample) (Some asym_sample).

Definition data_zero_chord : AircraftData :=
  mkAircraftData 4 (Some sym_zero_chord) None.

Definition data_singular : AircraftData :=
  mkAircraftData 4 (Some sym_singular) (Some asym_singular).

Definition data_empty : AircraftData := mkAircraftData 4 None None.

(** A square system with a repeated state name. *)
Definition a_dup : Matrix := [[1; 0]; [0; 1]].
Definition b_dup : Matrix := [[1]; [1]].
Definition x_dup : list string := ["x"; "x"]%string.
Definition u_dup : list string := ["u"]%string.

(** The loader hands over a description without any data block. *)
Definition load_empty (filename : string) : py AircraftData := ret data_empty.

(** Sum of the squared entry-wise differences of two action vectors. *)
Definition sum_sq_diff (a2 a1 : list Q) : Q :=
  fold_right Qplus 0 (map (fun p => (fst p - snd p) ^ 2) (combine a2 a1)).

(** Reward scale 2, last squared error 1, two equal actions. *)
Definition window_scaled : Env.t := Env.mk 2 [3; 1] [[5]; [7]; [7]].

(** Reward scale 0, last squared error 1. *)
Definition window_unscaled : Env.t := Env.mk 0 [3; 1] [[5]; [7]; [7]].

(** Reward scale 2, last squared error 1, last two actions apart. *)
Definition window_moving : Env.t := Env.mk 2 [3; 1] [[5]; [0; 1]; [2; 5]].

(** A base class that accepts every call. *)
Definition accepting : ControlLib :=
  mkControlLib unit
    (fun _ _ _ _ => Ok tt) (fun _ _ => Ok tt)
    (fun _ _ => Ok tt) (fun _ _ => Ok tt).

(** ** Further definitions *)

(** [Aircraft.__rich_repr__]: the pairs the generator yields, in order.
    A value is a string or the truth value of [... is not None]. *)
Inductive repr_value : Type :=
| RStr (s : string)
| RBool (b : bool).

(** [o is not None] *)
Definition is_not_None {A} (o : option A) : bool :=
  match o with Some _ => true | None => false end.

Definition Aircraft__rich_repr__ {L : ControlLib} (self : Aircraft.t L)
    : list (string * repr_value) :=
  [ ("Aircraft"%string, RStr self.(Aircraft.filename));
    ("Symmetric"%string, RBool (is_not_None self.(Aircraft.sym)));
    ("Asymmetric"%string, RBool (is_not_None self.(Aircraft.asym))) ].

(** Matrix B of the symmetric model in closed form, after lines 126 to
    138 of the source, with the total division of [Q]. *)
Definition symmetric_B (v : Q) (s : SymmetricData) : Matrix :=
  let v_c := v / c_bar s in
  let mu_c := mu_c s in
  let ky_2 := ky_2 s in
  let cx := cx s in
  let cz := cz s in
  let cm := cm s in
  let mu_c_cz_a := 2 * mu_c - Cz.a_dot cz in
  [ [v_c * Cx.de cx / (2 * mu_c)];
    [v_c * Cz.de cz / mu_c_cz_a];
    [0];
    [v_c * (Cm.de cm + Cz.de cz * Cm.a_dot cm / mu_c_cz_a)
     / (2 * mu_c * ky_2)] ].

(** The same aircraft description at another airspeed. *)
Definition with_v (data : AircraftData) (v' : Q) : AircraftData :=
  mkAircraftData v' (symmetric data) (asymmetric data).

(** [k * m] on an array *)
Definition scale_matrix (k : Q) (m : Matrix) : Matrix := map (map (Qmult k)) m.

(** The outcome of a computation does not depend on the divisions that
    were carried out before it. *)
Definition steady {A} (m : py A) : Prop :=
  forall n, fst (m n) = fst (m 0%nat).

(** A submodel of an [Aircraft] is what its constructor returned when the
    data block is there, and [None] when it is not. *)
Definition built {A M} (block : option A) (ctor : py M) (model : option M)
    : Prop :=
  match block with
  | None => model = None
  | Some _ => exists m, model = Some m /\ value ctor = Ok m
  end.

(** [data_sample] at twice the airspeed. *)
Definition data_fast : AircraftData := with_v data_sample 8.

(** As [asym_sample], with a zero span. *)
Definition asym_zero_span : AsymmetricData :=
  mkAsymmetricData 0 1 1 2 1 1
    (Cy.mk 1 2 3 4) (Cl.mk 1 2 3 4 5) (Cn.mk 2 3 6 7 11).

Definition data_zero_span : AircraftData :=
  mkAircraftData 4 None (Some asym_zero_span).

(** A singular symmetric block beside a sound asymmetric block. *)
Definition data_half_singular : AircraftData :=
  mkAircraftData 4 (Some sym_singular) (Some asym_sample).

Definition data_asym_only : AircraftData :=
  mkAircraftData 4 None (Some asym_sample).

Definition load_sample (filename : string) : py AircraftData :=
  ret data_sample.

Definition load_half_singular (filename : string) : py AircraftData :=
  ret data_half_singular.

Definition load_asym_only (filename : string) : py AircraftData :=
  ret data_asym_only.

(** A loader that does not find its file. *)
Definition load_missing (filename : string) : py AircraftData :=
  raise (ValueError "not found").

(** A base class that rejects every construction. *)
Definition rejecting : ControlLib :=
  mkControlLib unit
    (fun _ _ _ _ => Raise (ValueError "rejected"))
    (fun _ _ => Ok tt) (fun _ _ => Ok tt) (fun _ _ => Ok tt).

(** No error recorded yet. *)
Definition window_fresh : Env.t := Env.mk 2 [] [[5]; [7]].

(** One action recorded. *)
Definition window_single : Env.t := Env.mk 2 [3; 1] [[5]].

(** [window_moving] with its last two actions exchanged. *)
Definition window_moving_back : Env.t := Env.mk 2 [3; 1] [[5]; [2; 5]; [0; 1]].

(** Reward scale 1, last two actions apart. *)
Definition window_unit : Env.t := Env.mk 1 [3; 1] [[5]; [0; 1]; [2; 5]].

(** ** Division *)

Lemma truediv_ok (x y : Q) (n : nat) :
  ~ y == 0 -> (x // y) n = (Ok (x / y), S n).
Proof.
  intros Hy. unfold truediv.
  destruct (Qeq_bool y 0) eqn:E; [|reflexivity].
  apply Qeq_bool_iff in E. contradiction.
Qed.

Lemma truediv_zero (x y : Q) (n : nat) :
  y == 0 -> (x // y) n = (Raise ZeroDivisionError, n).
Proof.
  intros Hy. unfold truediv.
  apply Qeq_bool_iff in Hy. now rewrite Hy.
Qed.

Lemma truediv_cases (x y : Q) (n : nat) :
  (x // y) n = (Raise ZeroDivisionError, n) \/ (x // y) n = (Ok (x / y), S n).
Proof.
  unfold truediv. destruct (Qeq_bool y 0); [left | right]; reflexivity.
Qed.

Lemma two_mu_c_nonzero (s : SymmetricData) :
  ~ mu_c_ky_2 s == 0 -> ~ 2 * mu_c s == 0.
Proof.
  unfold mu_c_ky_2. intros H E. apply H. rewrite E. ring.
Qed.

Lemma two_mu_b_nonzero (s : AsymmetricData) :
  ~ mu_b s == 0 -> ~ 2 * mu_b s == 0.
Proof.
  intros H E. apply H. lra.
Qed.

Lemma mu_b_nonzero (s : AsymmetricData) :
  ~ mu_b_k s == 0 -> ~ mu_b s == 0.
Proof.
  unfold mu_b_k. intros H E. apply H. rewrite E. ring.
Qed.

(** Carries out the next division of a builder whose divisor is known
    to be nonzero. *)
Ltac divide :=
  rewrite truediv_ok by assumption; cbv beta iota.

(** ** Symmetric builder: matrix A *)

Lemma symmetric_build_a_run (data : AircraftData) (s : SymmetricData) :
  symmetric data = Some s ->
  ~ c_bar s == 0 -> ~ mu_c_cz_a s == 0 -> ~ mu_c_ky_2 s == 0 ->
  exists A, run (Symmetric.build_a data) = (Ok A, 14%nat)
            /\ mat_eq A (table_4_2_A (v data) s)
            /\ is_shape 4 4 A
            /\ nth 2 A [] = [0; 0; 0; v data / c_bar s].
Proof.
  intros Hs Hc Ha Hk.
  pose proof (two_mu_c_nonzero s Hk) as Hm.
  unfold mu_c_cz_a in Ha. unfold mu_c_ky_2 in Hk.
  unfold run, Symmetric.build_a. rewrite Hs.
  cbv beta iota zeta delta [bind attr ret].
  repeat divide.
  eexists. split; [reflexivity|]. split; [|split].
  - unfold table_4_2_A, mu_c_cz_a, mu_c_ky_2.
    repeat constructor; try reflexivity.
    unfold Qdiv. ring.
  - split; [reflexivity | repeat constructor].
  - reflexivity.
Qed.

Lemma run_value {A} (m : py A) (r : result A) (n : nat) :
  run m = (r, n) -> value m = r.
Proof. unfold value. now intros ->. Qed.

Lemma bind_raise {A B} (m : py A) (f : A -> py B) (e : exn) (n : nat) :
  run m = (Raise e, n) -> run (bind m f) = (Raise e, n).
Proof. unfold run, bind. now intros ->. Qed.

Lemma Forall2_nth {A} (R : A -> A -> Prop) (d : A) (l1 l2 : list A) :
  R d d -> Forall2 R l1 l2 -> forall i, R (nth i l1 d) (nth i l2 d).
Proof.
  intros Hd H. induction H as [|x y l1 l2 Hxy _ IH]; intros [|i]; simpl; auto.
Qed.

(** Equal arrays have equal entries. *)
Lemma mat_eq_entry (m1 m2 : Matrix) (i j : nat) :
  mat_eq m1 m2 -> nth j (nth i m1 []) 0 == nth j (nth i m2 []) 0.
Proof.
  intros H. apply Forall2_nth; [reflexivity|].
  apply (Forall2_nth (Forall2 Qeq) []); [constructor | exact H].
Qed.

(** Settles a numeric disequality between closed rationals. *)
Ltac q_neq := let H := fresh in intro H; vm_compute in H; discriminate H.

(** C2 (amended): for every symmetric data block whose reference chord
    [c_bar], [mu_c_cz_a = 2*mu_c - cz.a_dot] and [mu_c_ky_2 = 2*mu_c*ky_2]
    are nonzero, [Symmetric.build_a] returns a matrix equal to the table
    of section 4.2 row for row, and its entry in row theta, column q is
    exactly [v / c_bar], whatever the aerodynamic derivatives are. *)
Theorem symmetric_build_a_table (data : AircraftData) (s : SymmetricData) :
  symmetric data = Some s ->
  ~ c_bar s == 0 -> ~ mu_c_cz_a s == 0 -> ~ mu_c_ky_2 s == 0 ->
  exists A, value (Symmetric.build_a data) = Ok A
            /\ mat_eq A (table_4_2_A (v data) s)
            /\ nth 3 (nth 2 A []) 0 = v data / c_bar s.
Proof.
  intros Hs Hc Ha Hk.
  destruct (symmetric_build_a_run data s Hs Hc Ha Hk) as (A & HA & HT & _ & H2).
  exists A. split; [exact (run_value _ _ _ HA)|]. split; [exact HT|].
  now rewrite H2.
Qed.

Lemma symmetric_build_a_table_witness :
  exists A, value (Symmetric.build_a data_sample) = Ok A
            /\ mat_eq A (table_4_2_A (v data_sample) sym_sample)
            /\ nth 3 (nth 2 A []) 0 = v data_sample / c_bar sym_sample.
Proof.
  apply (symmetric_build_a_table data_sample sym_sample);
    [reflexivity | q_neq | q_neq | q_neq].
Defined.

(** C2 as stated fails on a block with a zero reference chord: both
    named denominators are nonzero, yet the first division [v / c_bar]
    raises and no matrix is returned. *)
Lemma symmetric_build_a_zero_chord :
  symmetric data_zero_chord = Some sym_zero_chord
  /\ ~ mu_c_cz_a sym_zero_chord == 0
  /\ ~ mu_c_ky_2 sym_zero_chord == 0
  /\ run (Symmetric.build_a data_zero_chord) = (Raise ZeroDivisionError, 0%nat)
  /\ ~ (exists A, value (Symmetric.build_a data_zero_chord) = Ok A
                  /\ mat_eq A (table_4_2_A (v data_zero_chord) sym_zero_chord)).
Proof.
  split; [reflexivity|]. split; [q_neq|]. split; [q_neq|].
  split; [reflexivity|].
  intros (A & HA & _). vm_compute in HA. discriminate HA.
Qed.

(** ** Zero denominators *)

(** Carries out the next division of a builder that is about to fail:
    either the divisor is known to be zero, or both outcomes of the
    division are followed. *)
Ltac fail_or_divide :=
  first
    [ rewrite truediv_zero by assumption; eexists; reflexivity
    | match goal with
      | |- context [ (?x // ?y) ?n ] =>
          let E := fresh "E" in
          destruct (truediv_cases x y n) as [E | E]; rewrite E; clear E;
          cbv beta iota; [eexists; reflexivity | ]
      end ].

Lemma symmetric_build_a_singular (data : AircraftData) (s : SymmetricData) :
  symmetric data = Some s ->
  mu_c_cz_a s == 0 \/ mu_c_ky_2 s == 0 ->
  exists n, run (Symmetric.build_a data) = (Raise ZeroDivisionError, n).
Proof.
  intros Hs H. unfold mu_c_cz_a, mu_c_ky_2 in H.
  unfold run, Symmetric.build_a. rewrite Hs.
  cbv beta iota zeta delta [bind attr ret].
  destruct H as [H | H]; repeat fail_or_divide.
Qed.

Lemma symmetric_build_b_singular (data : AircraftData) (s : SymmetricData) :
  symmetric data = Some s ->
  mu_c_cz_a s == 0 \/ mu_c_ky_2 s == 0 ->
  exists n, run (Symmetric.build_b data) = (Raise ZeroDivisionError, n).
Proof.
  intros Hs H. unfold mu_c_cz_a, mu_c_ky_2 in H.
  unfold run, Symmetric.build_b. rewrite Hs.
  cbv beta iota zeta delta [bind attr ret].
  destruct H as [H | H]; repeat fail_or_divide.
Qed.

Lemma asymmetric_build_a_singular (data : AircraftData) (s : AsymmetricData) :
  asymmetric data = Some s ->
  mu_b_k s == 0 ->
  exists n, run (Asymmetric.build_a data) = (Raise ZeroDivisionError, n).
Proof.
  intros Hs H. unfold mu_b_k in H.
  unfold run, Asymmetric.build_a. rewrite Hs.
  cbv beta iota zeta delta [bind attr ret].
  repeat fail_or_divide.
Qed.

Lemma asymmetric_build_b_singular (data : AircraftData) (s : AsymmetricData) :
  asymmetric data = Some s ->
  mu_b_k s == 0 ->
  exists n, run (Asymmetric.build_b data) = (Raise ZeroDivisionError, n).
Proof.
  intros Hs H. unfold mu_b_k in H.
  unfold run, Asymmetric.build_b. rewrite Hs.
  cbv beta iota zeta delta [bind attr ret].
  repeat fail_or_divide.
Qed.

(** Every failure of a division leaves the exception of the division. *)
Lemma symmetric_init_raises (L : ControlLib) (data : AircraftData)
    (e : exn) (n : nat) :
  run (Symmetric.build_a data) = (Raise e, n) ->
  value (Symmetric__init__ L data) = Raise e.
Proof.
  intros H. apply (run_value _ _ n).
  unfold Symmetric__init__. cbv zeta. now apply bind_raise.
Qed.

Lemma asymmetric_init_raises (L : ControlLib) (data : AircraftData)
    (e : exn) (n : nat) :
  run (Asymmetric.build_a data) = (Raise e, n) ->
  value (Asymmetric__init__ L data) = Raise e.
Proof.
  intros H. apply (run_value _ _ n).
  unfold Asymmetric__init__. cbv zeta. now apply bind_raise.
Qed.

(** C3 (amended): whenever its critical denominator is zero, each model
    builder fails with Python's [ZeroDivisionError], raised by a division
    itself: the symmetric builder when [mu_c_cz_a = 2*mu_c - cz.a_dot] or
    [mu_c_ky_2 = 2*mu_c*ky_2] is zero, the asymmetric builder when
    [mu_b_k = 4*mu_b*(kx_2*kz_2 - kxz^2)] is zero.  This holds for the two
    matrix builders of each model and for the model constructors, with
    any base class. *)
Theorem builders_zero_division (L : ControlLib) (data : AircraftData) :
  (forall s, symmetric data = Some s ->
             mu_c_cz_a s == 0 \/ mu_c_ky_2 s == 0 ->
             value (Symmetric.build_a data) = Raise ZeroDivisionError
             /\ value (Symmetric.build_b data) = Raise ZeroDivisionError
             /\ value (Symmetric__init__ L data) = Raise ZeroDivisionError)
  /\
  (forall s, asymmetric data = Some s ->
             mu_b_k s == 0 ->
             value (Asymmetric.build_a data) = Raise ZeroDivisionError
             /\ value (Asymmetric.build_b data) = Raise ZeroDivisionError
             /\ value (Asymmetric__init__ L data) = Raise ZeroDivisionError).
Proof.
  split; intros s Hs H.
  - destruct (symmetric_build_a_singular data s Hs H) as [n Hn].
    destruct (symmetric_build_b_singular data s Hs H) as [m Hm].
    split; [exact (run_value _ _ _ Hn)|].
    split; [exact (run_value _ _ _ Hm)|].
    exact (symmetric_init_raises L data _ n Hn).
  - destruct (asymmetric_build_a_singular data s Hs H) as [n Hn].
    destruct (asymmetric_build_b_singular data s Hs H) as [m Hm].
    split; [exact (run_value _ _ _ Hn)|].
    split; [exact (run_value _ _ _ Hm)|].
    exact (asymmetric_init_raises L data _ n Hn).
Qed.

Lemma builders_zero_division_witness :
  (value (Symmetric.build_a data_singular) = Raise ZeroDivisionError
   /\ value (Symmetric.build_b data_singular) = Raise ZeroDivisionError
   /\ value (Symmetric__init__ accepting data_singular)
      = Raise ZeroDivisionError)
  /\
  (value (Asymmetric.build_a data_singular) = Raise ZeroDivisionError
   /\ value (Asymmetric.build_b data_singular) = Raise ZeroDivisionError
   /\ value (Asymmetric__init__ accepting data_singular)
      = Raise ZeroDivisionError).
Proof.
  split.
  - apply (proj1 (builders_zero_division accepting data_singular) sym_singular);
      [reflexivity | left; reflexivity].
  - apply (proj2 (builders_zero_division accepting data_singular) asym_singular);
      [reflexivity | reflexivity].
Defined.

(** C3 as stated fails: with [cz.a_dot = 2 * mu_c] the symmetric builder
    first carries out the division [v / c_bar] and then fails in the next
    division with [ZeroDivisionError]; with [kx_2 * kz_2 = kxz ** 2] the
    asymmetric builder carries out five divisions before it fails.  No
    [SingularModelError] is raised and the failure does not come before
    the divisions. *)
Lemma builders_no_singular_guard :
  mu_c_cz_a sym_singular == 0
  /\ run (Symmetric.build_a data_singular) = (Raise ZeroDivisionError, 1%nat)
  /\ ~ (value (Symmetric.build_a data_singular) = Raise SingularModelError
        /\ divisions (Symmetric.build_a data_singular) = 0%nat)
  /\ mu_b_k asym_singular == 0
  /\ run (Asymmetric.build_a data_singular) = (Raise ZeroDivisionError, 5%nat)
  /\ ~ (value (Asymmetric.build_a data_singular) = Raise SingularModelError
        /\ divisions (Asymmetric.build_a data_singular) = 0%nat).
Proof.
  split; [reflexivity|]. split; [reflexivity|].
  split; [intros [H _]; vm_compute in H; discriminate H|].
  split; [reflexivity|]. split; [reflexivity|].
  intros [H _]; vm_compute in H; discriminate H.
Qed.

(** ** Asymmetric builder *)

(** What [Asymmetric.build_a] returns when no division fails: after the
    two chained assignments [v_b] holds the value of [lr]. *)
Lemma asymmetric_build_a_run (data : AircraftData) (s : AsymmetricData) :
  asymmetric data = Some s ->
  ~ b s == 0 -> ~ mu_b_k s == 0 ->
  let lp := (Cl.p (cl s) * kz_2 s + Cn.p (cn s) * kxz s) / mu_b_k s in
  let lr := (Cl.r (cl s) * kz_2 s + Cn.r (cn s) * kxz s) / mu_b_k s in
  run (Asymmetric.build_a data) = (Ok (design_A (v data) s lr lp lr), 11%nat).
Proof.
  intros Hs Hb Hk.
  pose proof (two_mu_b_nonzero s (mu_b_nonzero s Hk)) as Hm.
  unfold mu_b_k in Hk.
  unfold run, Asymmetric.build_a. rewrite Hs.
  cbv beta iota zeta delta [bind attr ret].
  repeat divide.
  reflexivity.
Qed.

(** C1 (amended): for every asymmetric data block with [b] and
    [mu_b_k = 4*mu_b*(kx_2*kz_2 - kxz^2)] nonzero, [Asymmetric.build_a]
    returns a 4 by 4 matrix whose [beta] row is the one of the table of
    section 4.3 with [v_b = v / b], whose entry [lb] is
    [v_b*(cl.b*kz_2 + cn.b*kxz)/mu_b_k], whose [phi] row is
    [0, 0, 2*scale, 0] and whose [n] row is
    [scale*(cl.x*kxz + cn.x*kx_2)/mu_b_k] for [x = b, p, r] with the same
    factor [scale], the second column of the last two rows being zero. *)
Theorem asymmetric_build_a_design (data : AircraftData) (s : AsymmetricData) :
  asymmetric data = Some s ->
  ~ b s == 0 -> ~ mu_b_k s == 0 ->
  exists A scale lp lr,
    value (Asymmetric.build_a data) = Ok A
    /\ mat_eq A (design_A (v data) s scale lp lr)
    /\ is_shape 4 4 A.
Proof.
  intros Hs Hb Hk.
  pose proof (asymmetric_build_a_run data s Hs Hb Hk) as H. cbv zeta in H.
  eexists. eexists. eexists. eexists.
  split; [exact (run_value _ _ _ H)|]. split.
  - repeat constructor; reflexivity.
  - split; [reflexivity | repeat constructor].
Qed.

Lemma asymmetric_build_a_design_witness :
  exists A scale lp lr,
    value (Asymmetric.build_a data_sample) = Ok A
    /\ mat_eq A (design_A (v data_sample) asym_sample scale lp lr)
    /\ is_shape 4 4 A.
Proof.
  apply (asymmetric_build_a_design data_sample asym_sample);
    [reflexivity | q_neq | q_neq].
Defined.

(** C1 as stated fails on [data_sample], where [mu_b_k = 4]: the matrix
    returned differs from the table of section 4.3 in the entries [lp]
    (5/4 against 5/2) and [nb] (45/16 against 2). *)
Lemma asymmetric_build_a_not_table :
  asymmetric data_sample = Some asym_sample
  /\ ~ mu_b_k asym_sample == 0
  /\ (exists A, value (Asymmetric.build_a data_sample) = Ok A
                /\ nth 2 (nth 2 A []) 0 == 5 # 4
                /\ nth 2 (nth 2 (table_4_3_A (v data_sample) asym_sample) []) 0
                   == 5 # 2
                /\ nth 0 (nth 3 A []) 0 == 45 # 16
                /\ nth 0 (nth 3 (table_4_3_A (v data_sample) asym_sample) []) 0
                   == 2)
  /\ ~ (exists A, value (Asymmetric.build_a data_sample) = Ok A
                  /\ mat_eq A (table_4_3_A (v data_sample) asym_sample)).
Proof.
  split; [reflexivity|]. split; [q_neq|]. split.
  - eexists. split; [vm_compute; reflexivity|].
    repeat split; vm_compute; reflexivity.
  - intros (A & HA & HM). vm_compute in HA. injection HA as <-.
    apply (mat_eq_entry _ _ 2 2) in HM. vm_compute in HM. discriminate HM.
Qed.

(** What [Asymmetric.build_b] returns when no division fails. *)
Lemma asymmetric_build_b_run (data : AircraftData) (s : AsymmetricData)
    (n : nat) :
  asymmetric data = Some s ->
  ~ mu_b_k s == 0 -> ~ mu_b s == 0 ->
  Asymmetric.build_b data n = (Ok (source_B (v data) s), (6 + n)%nat).
Proof.
  intros Hs Hk Hb.
  pose proof (two_mu_b_nonzero s Hb) as Hm.
  unfold mu_b_k in Hk.
  unfold Asymmetric.build_b. rewrite Hs.
  cbv beta iota zeta delta [bind attr ret].
  repeat divide.
  reflexivity.
Qed.

(** C4 (amended): for every asymmetric data block with [mu_b_k] and
    [mu_b] nonzero, [Asymmetric.build_b] returns the 4 by 2 matrix with
    rows [0, y_dr], [0, 0], [l_da, l_dr], [n_da, n_dr], every nonzero
    entry scaled by [v / mu_b]: [y_dr = (v/mu_b)*cy.dr/(2*mu_b)],
    [l_x = (v/mu_b)*(cl.x*kz_2 + cn.x*kxz)/mu_b_k] and
    [n_x = (v/mu_b)*(cl.x*kxz + cn.x*kx_2)/mu_b_k] for [x = da, dr]. *)
Theorem asymmetric_build_b_table (data : AircraftData) (s : AsymmetricData) :
  asymmetric data = Some s ->
  ~ mu_b_k s == 0 -> ~ mu_b s == 0 ->
  exists B, value (Asymmetric.build_b data) = Ok B
            /\ mat_eq B (source_B (v data) s)
            /\ is_shape 4 2 B.
Proof.
  intros Hs Hk Hb.
  pose proof (asymmetric_build_b_run data s 0%nat Hs Hk Hb) as H.
  eexists. split; [exact (run_value _ _ _ H)|]. split.
  - repeat constructor; reflexivity.
  - split; [reflexivity | repeat constructor].
Qed.

Lemma asymmetric_build_b_table_witness :
  exists B, value (Asymmetric.build_b data_sample) = Ok B
            /\ mat_eq B (source_B (v data_sample) asym_sample)
            /\ is_shape 4 2 B.
Proof.
  apply (asymmetric_build_b_table data_sample asym_sample);
    [reflexivity | q_neq | q_neq].
Defined.

(** C4 as stated fails on [data_sample], where [mu_b_k = 4] and
    [mu_b = 1]: the source has [n_da = (v/mu_b)*(cl.da*kxz + cn.da*kx_2)
    /mu_b_k = 18], the claim [(v/mu_b)*(cl.da*kx_2 + cn.da*kxz)/mu_b_k
    = 15]. *)
Lemma asymmetric_build_b_not_table :
  asymmetric data_sample = Some asym_sample
  /\ ~ mu_b_k asym_sample == 0
  /\ ~ mu_b asym_sample == 0
  /\ (exists B, value (Asymmetric.build_b data_sample) = Ok B
                /\ nth 0 (nth 3 B []) 0 == 18
                /\ nth 0 (nth 3 (table_4_3_B (v data_sample) asym_sample) []) 0
                   == 15)
  /\ ~ (exists B, value (Asymmetric.build_b data_sample) = Ok B
                  /\ mat_eq B (table_4_3_B (v data_sample) asym_sample)).
Proof.
  split; [reflexivity|]. split; [q_neq|]. split; [q_neq|]. split.
  - eexists. split; [vm_compute; reflexivity|].
    split; vm_compute; reflexivity.
  - intros (B & HB & HM). vm_compute in HB. injection HB as <-.
    apply (mat_eq_entry _ _ 3 0) in HM. vm_compute in HM. discriminate HM.
Qed.

(** ** State-space construction *)

Lemma bind_ok_inv {A B} (m : py A) (f : A -> py B) (r : B) (n k : nat) :
  bind m f n = (Ok r, k) ->
  exists a n', m n = (Ok a, n') /\ f a n' = (Ok r, k).
Proof.
  unfold bind. destruct (m n) as [[a | e] n'] eqn:E; intros H.
  - now exists a, n'.
  - discriminate H.
Qed.

(** A successful construction stores its arguments, the identity and the
    zero matrix, and has gone through the four calls of the base class. *)
Lemma StateSpace_init_ok (L : ControlLib) (a b : Matrix)
    (x_names u_names : list string) (ss : StateSpace.t L) (n k : nat) :
  StateSpace.__init__ L a b x_names u_names n = (Ok ss, k) ->
  exists row rest,
    b = row :: rest
    /\ k = n
    /\ ss = StateSpace.mk a b x_names u_names
              (eye (shape0 a)) (zeros (shape0 a) (List.length row))
              (StateSpace.base ss)
    /\ base_accepts L a b (eye (shape0 a)) (zeros (shape0 a) (List.length row))
         x_names u_names (StateSpace.base ss).
Proof.
  unfold StateSpace.__init__, shape1. cbv zeta.
  destruct b as [|row rest]; [discriminate|].
  intros H. exists row, rest. revert H.
  unfold bind, ret, lift.
  destruct (ct_init L a (row :: rest) _ _) as [s0|] eqn:E0; [|discriminate].
  destruct (set_inputs L s0 u_names) as [s1|] eqn:E1; [|discriminate].
  destruct (set_outputs L s1 x_names) as [s2|] eqn:E2; [|discriminate].
  destruct (set_states L s2 x_names) as [s3|] eqn:E3; [|discriminate].
  intros H. injection H as <- <-. cbn.
  repeat split. now exists s0, s1, s2.
Qed.

(** The construction succeeds as soon as [b] has a row and the base
    class accepts. *)
Lemma StateSpace_init_accepted (L : ControlLib) (a : Matrix)
    (row : list Q) (rest : Matrix) (x_names u_names : list string)
    (s : ct_state L) (n : nat) :
  base_accepts L a (row :: rest) (eye (shape0 a))
    (zeros (shape0 a) (List.length row)) x_names u_names s ->
  StateSpace.__init__ L a (row :: rest) x_names u_names n
  = (Ok (StateSpace.mk a (row :: rest) x_names u_names
           (eye (shape0 a)) (zeros (shape0 a) (List.length row)) s), n).
Proof.
  intros (s0 & s1 & s2 & E0 & E1 & E2 & E3).
  unfold StateSpace.__init__, shape1, bind, ret, lift. cbv zeta.
  now rewrite E0, E1, E2, E3.
Qed.

(** C7 (amended): [StateSpace.__init__] checks nothing itself and raises
    no [DimensionError]; it succeeds exactly when [b] has a second axis
    and the base class [control.StateSpace] accepts its four calls.  On
    every successful construction the object holds the arguments as given,
    [C] is the identity of size [a.shape[0]] and [D] is the zero matrix of
    size [a.shape[0]] by [b.shape[1]]. *)
Theorem StateSpace_init_identity_zero (L : ControlLib) (a b : Matrix)
    (x_names u_names : list string) :
  (forall ss, value (StateSpace.__init__ L a b x_names u_names) = Ok ss ->
     exists m, value (shape1 b) = Ok m
               /\ StateSpace.C ss = eye (shape0 a)
               /\ StateSpace.D ss = zeros (shape0 a) m
               /\ StateSpace.a ss = a /\ StateSpace.b ss = b
               /\ StateSpace.x_names ss = x_names
               /\ StateSpace.u_names ss = u_names
               /\ base_accepts L a b (eye (shape0 a)) (zeros (shape0 a) m)
                    x_names u_names (StateSpace.base ss))
  /\
  (forall m s, value (shape1 b) = Ok m ->
     base_accepts L a b (eye (shape0 a)) (zeros (shape0 a) m)
       x_names u_names s ->
     value (StateSpace.__init__ L a b x_names u_names)
     = Ok (StateSpace.mk a b x_names u_names
             (eye (shape0 a)) (zeros (shape0 a) m) s)).
Proof.
  split.
  - intros ss H. unfold value, run in H.
    destruct (StateSpace.__init__ L a b x_names u_names 0%nat)
      as [r k] eqn:E. cbn in H. subst r.
    destruct (StateSpace_init_ok L a b x_names u_names ss 0%nat k E)
      as (row & rest & -> & _ & Hss & Hacc).
    exists (List.length row). split; [reflexivity|].
    rewrite Hss. cbn. repeat split. exact Hacc.
  - intros m s Hm Hacc. destruct b as [|row rest]; [discriminate Hm|].
    cbn in Hm. injection Hm as <-.
    apply (run_value _ _ 0%nat). unfold run.
    now apply StateSpace_init_accepted.
Qed.

Lemma StateSpace_init_identity_zero_witness :
  value (StateSpace.__init__ accepting a_dup b_dup x_dup u_dup)
  = Ok (StateSpace.mk (L := accepting) a_dup b_dup x_dup u_dup
          (eye (shape0 a_dup)) (zeros (shape0 a_dup) 1) tt).
Proof.
  apply (proj2 (StateSpace_init_identity_zero accepting a_dup b_dup x_dup u_dup)
           1%nat tt).
  - reflexivity.
  - exists tt, tt, tt. repeat split.
Defined.

(** C7 as stated fails: nothing in [StateSpace.__init__] looks at the
    dimensions or the names.  With a base class that accepts, the
    construction succeeds although the two state names are the same; no
    [DimensionError] is raised. *)
Lemma StateSpace_init_no_validation :
  ~ NoDup x_dup
  /\ value (StateSpace.__init__ accepting a_dup b_dup x_dup u_dup)
     = Ok (StateSpace.mk (L := accepting) a_dup b_dup x_dup u_dup
             (eye 2) (zeros 2 1) tt)
  /\ value (StateSpace.__init__ accepting a_dup b_dup x_dup u_dup)
     <> Raise DimensionError.
Proof.
  split.
  { intros H. inversion H as [|x l Hin _]; subst. apply Hin. now left. }
  split; [reflexivity | discriminate].
Qed.

(** ** Model constructors *)

Lemma symmetric_build_b_run (data : AircraftData) (s : SymmetricData) :
  symmetric data = Some s ->
  ~ c_bar s == 0 -> ~ mu_c_cz_a s == 0 -> ~ mu_c_ky_2 s == 0 ->
  exists x_de z_de m_de, forall n,
    Symmetric.build_b data n
    = (Ok [[x_de]; [z_de]; [0]; [m_de]], (5 + n)%nat).
Proof.
  intros Hs Hc Ha Hk.
  pose proof (two_mu_c_nonzero s Hk) as Hm.
  unfold mu_c_cz_a in Ha. unfold mu_c_ky_2 in Hk.
  do 3 eexists. intros n.
  unfold Symmetric.build_b. rewrite Hs.
  cbv beta iota zeta delta [bind attr ret].
  repeat divide.
  reflexivity.
Qed.

(** Both constructors build [a], then [b], then hand over to
    [StateSpace.__init__]. *)
Lemma Symmetric_init_run (L : ControlLib) (data : AircraftData)
    (A B : Matrix) (n1 n2 : nat) :
  run (Symmetric.build_a data) = (Ok A, n1) ->
  Symmetric.build_b data n1 = (Ok B, n2) ->
  run (Symmetric__init__ L data)
  = StateSpace.__init__ L A B Symmetric.x_names Symmetric.u_names n2.
Proof.
  unfold run, Symmetric__init__, bind. cbv zeta. now intros -> ->.
Qed.

Lemma Asymmetric_init_run (L : ControlLib) (data : AircraftData)
    (A B : Matrix) (n1 n2 : nat) :
  run (Asymmetric.build_a data) = (Ok A, n1) ->
  Asymmetric.build_b data n1 = (Ok B, n2) ->
  run (Asymmetric__init__ L data)
  = StateSpace.__init__ L A B Asymmetric.x_names Asymmetric.u_names n2.
Proof.
  unfold run, Asymmetric__init__, bind. cbv zeta. now intros -> ->.
Qed.

(** What a model constructor yields, given the run of
    [StateSpace.__init__] it ends with. *)
Lemma model_of_init (L : ControlLib) (m : py (StateSpace.t L))
    (A : Matrix) (row : list Q) (rest : Matrix)
    (x_names u_names : list string) (n : nat) :
  run m = StateSpace.__init__ L A (row :: rest) x_names u_names n ->
  (forall ss, value m = Ok ss ->
     StateSpace.a ss = A /\ StateSpace.b ss = row :: rest
     /\ StateSpace.x_names ss = x_names /\ StateSpace.u_names ss = u_names)
  /\
  (forall st,
     base_accepts L A (row :: rest) (eye (shape0 A))
       (zeros (shape0 A) (List.length row)) x_names u_names st ->
     value m = Ok (StateSpace.mk A (row :: rest) x_names u_names
                     (eye (shape0 A)) (zeros (shape0 A) (List.length row))
                     st)).
Proof.
  intros Hrun. split.
  - intros ss H. unfold value in H. rewrite Hrun in H.
    destruct (StateSpace.__init__ L A (row :: rest) x_names u_names n)
      as [r k] eqn:E. cbn in H. subst r.
    destruct (StateSpace_init_ok L A _ x_names u_names ss n k E)
      as (row' & rest' & _ & _ & Hss & _).
    rewrite Hss. cbn. repeat split.
  - intros st Hacc. unfold value. rewrite Hrun.
    now rewrite (StateSpace_init_accepted L A row rest x_names u_names st n Hacc).
Qed.

(** C5 (amended): when the symmetric block is present and [c_bar],
    [mu_c_cz_a] and [mu_c_ky_2] are nonzero, the symmetric model has [A]
    of shape 4 by 4, [B] of shape 4 by 1, state names exactly
    [u_hat, alpha, theta, q_cv] and input names [de]; when the asymmetric
    block is present and [b] and [mu_b_k] are nonzero, the asymmetric model
    has [A] of shape 4 by 4, [B] of shape 4 by 2, state names exactly
    [beta, phi, pb_2v, rb_2v] and input names [da, dr].  The model exists
    as soon as the base class accepts the construction, with [C] the
    identity of size 4 and [D] a zero matrix. *)
Theorem models_shape_and_names (L : ControlLib) (data : AircraftData) :
  (forall s, symmetric data = Some s ->
     ~ c_bar s == 0 -> ~ mu_c_cz_a s == 0 -> ~ mu_c_ky_2 s == 0 ->
     exists A B,
       is_shape 4 4 A /\ is_shape 4 1 B
       /\ (forall ss, value (Symmetric__init__ L data) = Ok ss ->
             StateSpace.a ss = A /\ StateSpace.b ss = B
             /\ StateSpace.x_names ss
                = ["u_hat"; "alpha"; "theta"; "q_cv"]%string
             /\ StateSpace.u_names ss = ["de"]%string)
       /\ (forall st,
             base_accepts L A B (eye 4) (zeros 4 1)
               Symmetric.x_names Symmetric.u_names st ->
             value (Symmetric__init__ L data)
             = Ok (StateSpace.mk A B
                     ["u_hat"; "alpha"; "theta"; "q_cv"]%string
                     ["de"]%string (eye 4) (zeros 4 1) st)))
  /\
  (forall s, asymmetric data = Some s ->
     ~ b s == 0 -> ~ mu_b_k s == 0 ->
     exists A B,
       is_shape 4 4 A /\ is_shape 4 2 B
       /\ (forall ss, value (Asymmetric__init__ L data) = Ok ss ->
             StateSpace.a ss = A /\ StateSpace.b ss = B
             /\ StateSpace.x_names ss
                = ["beta"; "phi"; "pb_2v"; "rb_2v"]%string
             /\ StateSpace.u_names ss = ["da"; "dr"]%string)
       /\ (forall st,
             base_accepts L A B (eye 4) (zeros 4 2)
               Asymmetric.x_names Asymmetric.u_names st ->
             value (Asymmetric__init__ L data)
             = Ok (StateSpace.mk A B
                     ["beta"; "phi"; "pb_2v"; "rb_2v"]%string
                     ["da"; "dr"]%string (eye 4) (zeros 4 2) st))).
Proof.
  split.
  - intros s Hs Hc Ha Hk.
    destruct (symmetric_build_a_run data s Hs Hc Ha Hk)
      as (A & HA & _ & HshA & _).
    destruct (symmetric_build_b_run data s Hs Hc Ha Hk)
      as (x_de & z_de & m_de & HB).
    pose proof (Symmetric_init_run L data A _ _ _ HA (HB 14%nat)) as Hrun.
    pose proof (model_of_init L _ A _ _ _ _ _ Hrun) as [H1 H2].
    assert (E : shape0 A = 4%nat) by exact (proj1 HshA).
    rewrite E in H2.
    exists A, [[x_de]; [z_de]; [0]; [m_de]].
    split; [exact HshA|]. split; [split; [reflexivity | repeat constructor]|].
    split; [exact H1 | exact H2].
  - intros s Hs Hb Hk.
    pose proof (asymmetric_build_a_run data s Hs Hb Hk) as HA. cbv zeta in HA.
    pose proof (asymmetric_build_b_run data s 11%nat Hs Hk (mu_b_nonzero s Hk))
      as HB.
    pose proof (Asymmetric_init_run L data _ _ _ _ HA HB) as Hrun.
    pose proof (model_of_init L _ _ _ _ _ _ _ Hrun) as [H1 H2].
    match type of HA with run _ = (Ok ?A, _) => exists A end.
    exists (source_B (v data) s).
    split; [split; [reflexivity | repeat constructor]|].
    split; [split; [reflexivity | repeat constructor]|].
    split; [exact H1 | exact H2].
Qed.

Lemma models_shape_and_names_witness :
  (exists A B,
     is_shape 4 4 A /\ is_shape 4 1 B
     /\ value (Symmetric__init__ accepting data_sample)
        = Ok (StateSpace.mk (L := accepting) A B
                ["u_hat"; "alpha"; "theta"; "q_cv"]%string
                ["de"]%string (eye 4) (zeros 4 1) tt))
  /\
  (exists A B,
     is_shape 4 4 A /\ is_shape 4 2 B
     /\ value (Asymmetric__init__ accepting data_sample)
        = Ok (StateSpace.mk (L := accepting) A B
                ["beta"; "phi"; "pb_2v"; "rb_2v"]%string
                ["da"; "dr"]%string (eye 4) (zeros 4 2) tt)).
Proof.
  split.
  - destruct (proj1 (models_shape_and_names accepting data_sample) sym_sample)
      as (A & B & HA & HB & _ & H); [reflexivity | q_neq | q_neq | q_neq |].
    exists A, B. split; [exact HA|]. split; [exact HB|].
    apply H. exists tt, tt, tt. repeat split.
  - destruct (proj2 (models_shape_and_names accepting data_sample) asym_sample)
      as (A & B & HA & HB & _ & H); [reflexivity | q_neq | q_neq |].
    exists A, B. split; [exact HA|]. split; [exact HB|].
    apply H. exists tt, tt, tt. repeat split.
Defined.

(** C5 as stated fails on [data_sample]: whatever the base class does, a
    symmetric model that is returned has the state names
    [u_hat, alpha, theta, q_cv], not [u_hat, alpha, theta, q], and an
    asymmetric one [beta, phi, pb_2v, rb_2v], not [beta, phi, p, r]; with
    a base class that accepts, both models are returned. *)
Lemma models_state_names_differ :
  (exists ss, value (Symmetric__init__ accepting data_sample) = Ok ss)
  /\ (forall L ss, value (Symmetric__init__ L data_sample) = Ok ss ->
        StateSpace.x_names ss <> ["u_hat"; "alpha"; "theta"; "q"]%string)
  /\ (exists ss, value (Asymmetric__init__ accepting data_sample) = Ok ss)
  /\ (forall L ss, value (Asymmetric__init__ L data_sample) = Ok ss ->
        StateSpace.x_names ss <> ["beta"; "phi"; "p"; "r"]%string).
Proof.
  split; [eexists; vm_compute; reflexivity|]. split.
  { intros L ss H.
    unfold value, run in H.
    destruct (Symmetric__init__ L data_sample 0%nat) as [r k] eqn:E.
    cbn in H. subst r. unfold Symmetric__init__ in E. cbv zeta in E.
    apply bind_ok_inv in E. destruct E as (A & n1 & _ & E).
    apply bind_ok_inv in E. destruct E as (B & n2 & _ & E).
    apply StateSpace_init_ok in E.
    destruct E as (row & rest & _ & _ & Hss & _).
    rewrite Hss. cbn. discriminate. }
  split; [eexists; vm_compute; reflexivity|].
  intros L ss H.
  unfold value, run in H.
  destruct (Asymmetric__init__ L data_sample 0%nat) as [r k] eqn:E.
  cbn in H. subst r. unfold Asymmetric__init__ in E. cbv zeta in E.
  apply bind_ok_inv in E. destruct E as (A & n1 & _ & E).
  apply bind_ok_inv in E. destruct E as (B & n2 & _ & E).
  apply StateSpace_init_ok in E.
  destruct E as (row & rest & _ & _ & Hss & _).
  rewrite Hss. cbn. discriminate.
Qed.

(** ** Aircraft *)

(** C6 (amended): constructing an [Aircraft] from data in which neither
    the symmetric nor the asymmetric block is present succeeds: no
    exception is raised, no model is built and the instance returned has
    both [sym] and [asym] absent. *)
Theorem Aircraft_init_without_blocks (L : ControlLib)
    (load_aircraft : string -> py AircraftData) (filename : string)
    (data : AircraftData) :
  value (load_aircraft filename) = Ok data ->
  symmetric data = None ->
  asymmetric data = None ->
  value (Aircraft.__init__ L load_aircraft filename)
  = Ok (Aircraft.mk filename data None None).
Proof.
  unfold value, run, Aircraft.__init__, bind.
  destruct (load_aircraft filename 0%nat) as [r n]. cbn [fst].
  intros -> Hs Ha. cbv zeta. now rewrite Hs, Ha.
Qed.

Lemma Aircraft_init_without_blocks_witness :
  value (Aircraft.__init__ accepting load_empty "citation.yaml")
  = Ok (Aircraft.mk "citation.yaml" data_empty None None).
Proof.
  apply (Aircraft_init_without_blocks accepting load_empty "citation.yaml"
           data_empty); reflexivity.
Defined.

(** C6 as stated fails: from a description without any data block the
    constructor returns an instance, whatever the base class is, and
    raises no [ConfigurationError]. *)
Lemma Aircraft_init_no_configuration_error :
  symmetric data_empty = None
  /\ asymmetric data_empty = None
  /\ forall L,
       value (Aircraft.__init__ L load_empty "citation.yaml")
       = Ok (Aircraft.mk "citation.yaml" data_empty None None)
       /\ value (Aircraft.__init__ L load_empty "citation.yaml")
          <> Raise ConfigurationError.
Proof.
  split; [reflexivity|]. split; [reflexivity|].
  intros L. split; [reflexivity | discriminate].
Qed.

(** ** Rewards *)

Lemma item_last_snoc (l : list Q) (e : Q) : item_last (l ++ [e]) = ret e.
Proof.
  unfold item_last. destruct (l ++ [e]) eqn:E.
  - now destruct l.
  - rewrite <- E. now rewrite last_last.
Qed.

Lemma slice_last2_snoc2 {A} (pre : list A) (a1 a2 : A) :
  slice_last2 (pre ++ [a1; a2]) = [a1; a2].
Proof.
  unfold slice_last2. rewrite length_app. cbn [List.length].
  replace (List.length pre + 2 - 2)%nat with (List.length pre + 0)%nat by lia.
  rewrite skipn_app, Nat.add_0_r, skipn_all.
  replace (List.length pre - List.length pre)%nat with 0%nat by lia.
  reflexivity.
Qed.

(** Rows of equal length subtract entry by entry. *)
Lemma sub_rows_ok (r1 r0 : list Q) (n : nat) :
  List.length r1 = List.length r0 ->
  sub_rows r1 r0 n = (Ok (map (fun p => fst p - snd p) (combine r1 r0)), n).
Proof.
  revert r0. induction r1 as [|x r1 IH]; intros [|y r0] H;
    try discriminate H; [reflexivity|].
  cbn [sub_rows]. unfold bind. rewrite IH by (cbn in H; lia). reflexivity.
Qed.

(** The difference of the last two actions, when there are two of one
    length. *)
Lemma np_diff_last2 (pre : list (list Q)) (a1 a2 : list Q) (n : nat) :
  List.length a1 = List.length a2 ->
  np_diff (slice_last2 (pre ++ [a1; a2])) n
  = (Ok [map (fun p => fst p - snd p) (combine a2 a1)], n).
Proof.
  intros H. rewrite slice_last2_snoc2. cbn [np_diff]. unfold bind.
  rewrite sub_rows_ok by (symmetry; exact H). reflexivity.
Qed.

Lemma np_sum_square_row (d : list Q) :
  np_sum (np_square [d]) = fold_right Qplus 0 (map (fun x => x ^ 2) d).
Proof.
  unfold np_sum, np_square. cbn [map concat]. now rewrite app_nil_r.
Qed.

(** What [sq_error] returns on a window whose last squared error is [e]. *)
Lemma sq_error_value (w : Env.t) (hist : list Q) (e : Q) :
  Env.sq_error w = hist ++ [e] ->
  run (score "sq_error" w) = (Ok (- Env.reward_scale w * e), 0%nat).
Proof.
  intros H. unfold run, score, get_reward. cbn [String.eqb Ascii.eqb Bool.eqb].
  unfold bind, ret, Rewards.sq_error. cbv zeta. rewrite H, item_last_snoc.
  reflexivity.
Qed.

(** What [sq_error_da] returns on a window whose last squared error is
    [e] and whose last two actions are [a1] and [a2]: the reward scale
    plays no part. *)
Lemma sq_error_da_value (w : Env.t) (hist : list Q) (e : Q)
    (pre : list (list Q)) (a1 a2 : list Q) :
  Env.sq_error w = hist ++ [e] ->
  Env.actions w = pre ++ [a1; a2] ->
  List.length a1 = List.length a2 ->
  run (score "sq_error_da" w) = (Ok (- (e + sum_sq_diff a2 a1)), 0%nat).
Proof.
  intros H Ha Hl. unfold run, score, get_reward.
  cbn [String.eqb Ascii.eqb Bool.eqb].
  unfold bind, ret, Rewards.sq_error_da. rewrite H, item_last_snoc, Ha.
  unfold bind, ret. rewrite np_diff_last2 by exact Hl.
  rewrite np_sum_square_row, map_map. reflexivity.
Qed.

(** C8: [score("sq_error", window)] is [-s * e2] on every window, but
    [score("sq_error_da", window)] leaves the reward scale out.  On a
    window with scale 2, last squared error 1 and two equal last actions
    [sq_error] returns [-2], and [sq_error_da] returns [-1] where the
    claim has [-2 * 1 - 0 = -2]. *)
Theorem sq_error_da_ignores_reward_scale :
  value (score "sq_error" window_scaled) = Ok (- 2 * 1)
  /\ value (score "sq_error_da" window_scaled) = Ok (- (1 + 0))
  /\ ~ - (1 + 0) == - 2 * 1 - sum_sq_diff [7] [7]
  /\ forall s, value (score "sq_error_da" (Env.mk s [3; 1] [[5]; [7]; [7]]))
               = Ok (- (1 + sum_sq_diff [7] [7])).
Proof.
  split; [reflexivity|]. split; [vm_compute; reflexivity|]. split; [q_neq|].
  intros s. apply (run_value _ _ 0%nat).
  now apply (sq_error_da_value _ [3] 1 [[5]] [7] [7]).
Qed.

(** C9: for every tag other than [sq_error] and [sq_error_da], and every
    window, selecting the reward function fails, and so does scoring: the
    [else] branch of [get_reward] raises [ValueError] with the message
    "Reward type ... not found" (the unknown-reward-kind error of the
    specification), and no score is returned. *)
Theorem unknown_reward_kind_fails (kind : string) (window : Env.t) :
  kind <> "sq_error"%string ->
  kind <> "sq_error_da"%string ->
  value (score kind window)
  = Raise (ValueError ("Reward type " ++ kind ++ " not found"))
  /\ (forall r, value (score kind window) <> Ok r)
  /\ forall f, value (get_reward kind) <> Ok f.
Proof.
  intros H1 H2.
  apply String.eqb_neq in H1. apply String.eqb_neq in H2.
  unfold value, run, score, get_reward, bind. rewrite H1, H2. cbn.
  repeat split; intros; discriminate.
Qed.

Lemma unknown_reward_kind_fails_witness :
  value (score "unknown_kind" window_scaled)
  = Raise (ValueError "Reward type unknown_kind not found")
  /\ (forall r, value (score "unknown_kind" window_scaled) <> Ok r)
  /\ forall f, value (get_reward "unknown_kind") <> Ok f.
Proof.
  apply (unknown_reward_kind_fails "unknown_kind" window_scaled);
    discriminate.
Defined.

(** ** Rewards are penalties *)

Lemma square_nonneg (x : Q) : 0 <= x ^ 2.
Proof. change (x ^ 2) with (x * x). nra. Qed.

Lemma square_zero (x : Q) : x ^ 2 == 0 -> x == 0.
Proof.
  change (x ^ 2) with (x * x). intros H.
  apply Qmult_integral in H. tauto.
Qed.

Lemma sum_sq_diff_nonneg (a2 a1 : list Q) : 0 <= sum_sq_diff a2 a1.
Proof.
  unfold sum_sq_diff.
  induction (combine a2 a1) as [|p l IH]; cbn [map fold_right].
  - lra.
  - pose proof (square_nonneg (fst p - snd p)). lra.
Qed.

Lemma sum_sq_diff_zero (a2 a1 : list Q) :
  List.length a1 = List.length a2 ->
  sum_sq_diff a2 a1 == 0 -> Forall2 Qeq a1 a2.
Proof.
  revert a2. induction a1 as [|x a1 IH]; intros [|y a2] Hl H;
    try discriminate Hl; [constructor|].
  unfold sum_sq_diff in H. cbn [combine map fold_right fst snd] in H.
  pose proof (square_nonneg (y - x)) as Hsq.
  pose proof (sum_sq_diff_nonneg a2 a1) as Hrest. unfold sum_sq_diff in Hrest.
  constructor.
  - assert (E : (y - x) ^ 2 == 0) by lra. apply square_zero in E. lra.
  - apply IH; [cbn in Hl; lia|]. unfold sum_sq_diff. lra.
Qed.

Lemma snoc2_inj {A} (pre pre' : list A) (a1 a2 b1 b2 : A) :
  pre ++ [a1; a2] = pre' ++ [b1; b2] -> a1 = b1 /\ a2 = b2.
Proof.
  change (pre ++ [a1; a2]) with (pre ++ [a1] ++ [a2]).
  change (pre' ++ [b1; b2]) with (pre' ++ [b1] ++ [b2]).
  rewrite !app_assoc. intros H.
  apply app_inj_tail in H. destruct H as [H ->].
  apply app_inj_tail in H. destruct H as [_ ->]. now split.
Qed.

Lemma last_two_cases {A} (l : list A) :
  l = [] \/ (exists a, l = [a]) \/ (exists pre a1 a2, l = pre ++ [a1; a2]).
Proof.
  destruct l as [|x l] using rev_ind; [now left | right].
  destruct l as [|y l _] using rev_ind.
  - left. now exists x.
  - right. exists l, y, x. now rewrite <- app_assoc.
Qed.

(** The smoothness term of [sq_error_da]: it exists whenever the last two
    actions, if there are two, have one length; it is never negative and
    vanishes only if these two actions agree. *)
Lemma smoothness_term (acts : list (list Q)) :
  (forall pre a1 a2, acts = pre ++ [a1; a2] ->
                     List.length a1 = List.length a2) ->
  exists d,
    (forall n, np_diff (slice_last2 acts) n = (Ok d, n))
    /\ 0 <= np_sum (np_square d)
    /\ (np_sum (np_square d) == 0 ->
        forall pre a1 a2, acts = pre ++ [a1; a2] -> Forall2 Qeq a1 a2).
Proof.
  intros Hlen.
  destruct (last_two_cases acts) as [-> | [[a ->] | (pre & a1 & a2 & ->)]].
  - exists []. split; [reflexivity|]. split; [cbn; lra|].
    intros _ pre a1 a2 H. now destruct pre.
  - exists []. split; [reflexivity|]. split; [cbn; lra|].
    intros _ pre a1 a2 H. destruct pre as [|x [|y pre]]; discriminate H.
  - pose proof (Hlen pre a1 a2 eq_refl) as Hl.
    exists [map (fun p => fst p - snd p) (combine a2 a1)].
    split; [intros n; now apply np_diff_last2|].
    rewrite np_sum_square_row, map_map.
    split; [apply sum_sq_diff_nonneg|].
    intros H0 pre' b1 b2 E. apply snoc2_inj in E. destruct E as [<- <-].
    now apply sum_sq_diff_zero.
Qed.

(** C10 (amended): on every window whose last squared tracking error is
    nonnegative, with a nonnegative reward scale, both reward kinds return
    a value that is at most zero.  [sq_error] returns zero only at zero
    tracking error provided the reward scale is positive; [sq_error_da]
    returns zero only at zero tracking error and equal last two
    actions. *)
Theorem rewards_are_penalties (w : Env.t) (hist : list Q) (e : Q) :
  Env.sq_error w = hist ++ [e] ->
  0 <= e ->
  0 <= Env.reward_scale w ->
  (forall pre a1 a2, Env.actions w = pre ++ [a1; a2] ->
                     List.length a1 = List.length a2) ->
  (exists r, value (score "sq_error" w) = Ok r
             /\ r <= 0
             /\ (r == 0 -> 0 < Env.reward_scale w -> e == 0))
  /\
  (exists r, value (score "sq_error_da" w) = Ok r
             /\ r <= 0
             /\ (r == 0 ->
                 e == 0
                 /\ forall pre a1 a2, Env.actions w = pre ++ [a1; a2] ->
                                      Forall2 Qeq a1 a2)).
Proof.
  intros H He Hs Hlen. split.
  - exists (- Env.reward_scale w * e).
    split; [exact (run_value _ _ _ (sq_error_value w hist e H))|].
    split; [nra|]. intros H0 Hpos.
    destruct (Qeq_dec e 0) as [E | E]; [exact E|]. exfalso. nra.
  - destruct (smoothness_term (Env.actions w) Hlen) as (d & Hd & Hnn & Hz).
    exists (- (e + np_sum (np_square d))). split.
    + apply (run_value _ _ 0%nat). unfold run, score, get_reward.
      cbn [String.eqb Ascii.eqb Bool.eqb].
      unfold bind, ret, Rewards.sq_error_da. rewrite H, item_last_snoc.
      unfold bind, ret. now rewrite Hd.
    + split; [lra|]. intros H0. split; [lra|]. apply Hz. lra.
Qed.

Lemma rewards_are_penalties_witness :
  (exists r, value (score "sq_error" window_moving) = Ok r
             /\ r <= 0
             /\ (r == 0 -> 0 < Env.reward_scale window_moving -> 1 == 0))
  /\
  (exists r, value (score "sq_error_da" window_moving) = Ok r
             /\ r <= 0
             /\ (r == 0 ->
                 1 == 0
                 /\ forall pre a1 a2,
                      Env.actions window_moving = pre ++ [a1; a2] ->
                      Forall2 Qeq a1 a2)).
Proof.
  apply (rewards_are_penalties window_moving [3] 1).
  - reflexivity.
  - vm_compute. discriminate.
  - vm_compute. discriminate.
  - intros pre a1 a2 H.
    apply (snoc2_inj [[5]] pre [0; 1] [2; 5] a1 a2) in H.
    destruct H as [<- <-]. reflexivity.
Defined.

(** C10 as stated fails for a reward scale of zero: the scale and the
    last squared tracking error 1 are both nonnegative, [sq_error]
    returns zero, and the tracking error is not zero. *)
Lemma zero_scale_zero_reward :
  Env.sq_error window_unscaled = [3] ++ [1]
  /\ 0 <= 1
  /\ 0 <= Env.reward_scale window_unscaled
  /\ value (score "sq_error" window_unscaled) = Ok 0
  /\ ~ 1 == 0.
Proof.
  split; [reflexivity|]. split; [vm_compute; discriminate|].
  split; [vm_compute; discriminate|]. split; [reflexivity|]. q_neq.
Qed.

(** ** Arrays up to numeric equality *)

Lemma mat_eq_sym (m1 m2 : Matrix) : mat_eq m1 m2 -> mat_eq m2 m1.
Proof.
  intros H. induction H as [|r1 r2 m1 m2 Hr _ IH]; constructor; [|exact IH].
  induction Hr; constructor; [symmetry|]; assumption.
Qed.

Lemma row_eq_trans (r1 r2 r3 : list Q) :
  Forall2 Qeq r1 r2 -> Forall2 Qeq r2 r3 -> Forall2 Qeq r1 r3.
Proof.
  intros H. revert r3. induction H as [|x y r1 r2 Hxy _ IH]; intros r3 H23;
    inversion H23; subst; constructor.
  - etransitivity; eassumption.
  - now apply IH.
Qed.

Lemma mat_eq_trans (m1 m2 m3 : Matrix) :
  mat_eq m1 m2 -> mat_eq m2 m3 -> mat_eq m1 m3.
Proof.
  intros H. revert m3. induction H as [|r1 r2 m1 m2 Hr _ IH]; intros m3 H23;
    inversion H23; subst; constructor.
  - eapply row_eq_trans; eassumption.
  - now apply IH.
Qed.

Lemma scale_matrix_eq (k : Q) (m1 m2 : Matrix) :
  mat_eq m1 m2 -> mat_eq (scale_matrix k m1) (scale_matrix k m2).
Proof.
  intros H. induction H as [|r1 r2 m1 m2 Hr _ IH]; constructor; [|exact IH].
  induction Hr as [|x y r1 r2 Hxy _ IHr]; constructor; [|exact IHr].
  now rewrite Hxy.
Qed.

(** ** Symmetric builder: matrix B, failure and airspeed *)

Lemma symmetric_build_b_closed (data : AircraftData) (s : SymmetricData)
    (n : nat) :
  symmetric data = Some s ->
  ~ c_bar s == 0 -> ~ mu_c_cz_a s == 0 -> ~ mu_c_ky_2 s == 0 ->
  Symmetric.build_b data n = (Ok (symmetric_B (v data) s), (5 + n)%nat).
Proof.
  intros Hs Hc Ha Hk.
  pose proof (two_mu_c_nonzero s Hk) as Hm.
  unfold mu_c_cz_a in Ha. unfold mu_c_ky_2 in Hk.
  unfold Symmetric.build_b. rewrite Hs.
  cbv beta iota zeta delta [bind attr ret].
  repeat divide.
  reflexivity.
Qed.

(** X1: for a symmetric block with [c_bar], [mu_c_cz_a] and [mu_c_ky_2]
    nonzero, [Symmetric.build_b] returns the 4 by 1 column
    [v_c*cx.de/(2*mu_c)], [v_c*cz.de/mu_c_cz_a], [0],
    [v_c*(cm.de + cz.de*cm.a_dot/mu_c_cz_a)/(2*mu_c*ky_2)] with
    [v_c = v / c_bar], after five divisions. *)
Theorem symmetric_build_b_column (data : AircraftData) (s : SymmetricData) :
  symmetric data = Some s ->
  ~ c_bar s == 0 -> ~ mu_c_cz_a s == 0 -> ~ mu_c_ky_2 s == 0 ->
  value (Symmetric.build_b data) = Ok (symmetric_B (v data) s)
  /\ divisions (Symmetric.build_b data) = 5%nat
  /\ is_shape 4 1 (symmetric_B (v data) s).
Proof.
  intros Hs Hc Ha Hk.
  pose proof (symmetric_build_b_closed data s 0%nat Hs Hc Ha Hk) as H.
  unfold value, divisions, run. rewrite H.
  repeat split. repeat constructor.
Qed.

Lemma symmetric_build_b_column_witness :
  value (Symmetric.build_b data_sample) = Ok (symmetric_B (v data_sample) sym_sample)
  /\ divisions (Symmetric.build_b data_sample) = 5%nat
  /\ is_shape 4 1 (symmetric_B (v data_sample) sym_sample).
Proof.
  apply (symmetric_build_b_column data_sample sym_sample);
    [reflexivity | q_neq | q_neq | q_neq].
Defined.

Lemma symmetric_build_a_no_chord (data : AircraftData) (s : SymmetricData) :
  symmetric data = Some s -> c_bar s == 0 ->
  exists n, run (Symmetric.build_a data) = (Raise ZeroDivisionError, n).
Proof.
  intros Hs H. unfold run, Symmetric.build_a. rewrite Hs.
  cbv beta iota zeta delta [bind attr ret]. fail_or_divide.
Qed.

Lemma symmetric_build_b_no_chord (data : AircraftData) (s : SymmetricData) :
  symmetric data = Some s -> c_bar s == 0 ->
  exists n, run (Symmetric.build_b data) = (Raise ZeroDivisionError, n).
Proof.
  intros Hs H. unfold run, Symmetric.build_b. rewrite Hs.
  cbv beta iota zeta delta [bind attr ret]. fail_or_divide.
Qed.

(** X2: on a description with a symmetric block, [Symmetric.build_a] and
    [Symmetric.build_b] succeed together or fail together: both return
    their matrix when [c_bar], [mu_c_cz_a] and [mu_c_ky_2] are all
    nonzero, and both raise [ZeroDivisionError] when one of the three is
    zero.  No other outcome exists. *)
Theorem symmetric_builders_dichotomy (data : AircraftData)
    (s : SymmetricData) :
  symmetric data = Some s ->
  ((~ c_bar s == 0 /\ ~ mu_c_cz_a s == 0 /\ ~ mu_c_ky_2 s == 0)
   /\ (exists A, value (Symmetric.build_a data) = Ok A)
   /\ value (Symmetric.build_b data) = Ok (symmetric_B (v data) s))
  \/
  ((c_bar s == 0 \/ mu_c_cz_a s == 0 \/ mu_c_ky_2 s == 0)
   /\ value (Symmetric.build_a data) = Raise ZeroDivisionError
   /\ value (Symmetric.build_b data) = Raise ZeroDivisionError).
Proof.
  intros Hs.
  destruct (Qeq_dec (c_bar s) 0) as [Hc | Hc].
  { right. split; [now left|].
    destruct (symmetric_build_a_no_chord data s Hs Hc) as [n Hn].
    destruct (symmetric_build_b_no_chord data s Hs Hc) as [m Hm].
    split; [exact (run_value _ _ _ Hn) | exact (run_value _ _ _ Hm)]. }
  destruct (Qeq_dec (mu_c_cz_a s) 0) as [Ha | Ha].
  { right. split; [right; now left|].
    destruct (symmetric_build_a_singular data s Hs (or_introl Ha)) as [n Hn].
    destruct (symmetric_build_b_singular data s Hs (or_introl Ha)) as [m Hm].
    split; [exact (run_value _ _ _ Hn) | exact (run_value _ _ _ Hm)]. }
  destruct (Qeq_dec (mu_c_ky_2 s) 0) as [Hk | Hk].
  { right. split; [right; now right|].
    destruct (symmetric_build_a_singular data s Hs (or_intror Hk)) as [n Hn].
    destruct (symmetric_build_b_singular data s Hs (or_intror Hk)) as [m Hm].
    split; [exact (run_value _ _ _ Hn) | exact (run_value _ _ _ Hm)]. }
  left. split; [now repeat split|].
  destruct (symmetric_build_a_run data s Hs Hc Ha Hk) as (A & HA & _).
  split; [exists A; exact (run_value _ _ _ HA)|].
  exact (run_value _ _ _ (symmetric_build_b_closed data s 0%nat Hs Hc Ha Hk)).
Qed.

Lemma symmetric_builders_dichotomy_witness :
  ((~ c_bar sym_zero_chord == 0 /\ ~ mu_c_cz_a sym_zero_chord == 0
    /\ ~ mu_c_ky_2 sym_zero_chord == 0)
   /\ (exists A, value (Symmetric.build_a data_zero_chord) = Ok A)
   /\ value (Symmetric.build_b data_zero_chord)
      = Ok (symmetric_B (v data_zero_chord) sym_zero_chord))
  \/
  ((c_bar sym_zero_chord == 0 \/ mu_c_cz_a sym_zero_chord == 0
    \/ mu_c_ky_2 sym_zero_chord == 0)
   /\ value (Symmetric.build_a data_zero_chord) = Raise ZeroDivisionError
   /\ value (Symmetric.build_b data_zero_chord) = Raise ZeroDivisionError).
Proof.
  apply (symmetric_builders_dichotomy data_zero_chord sym_zero_chord).
  reflexivity.
Defined.

Lemma table_4_2_A_scale (k v : Q) (s : SymmetricData) :
  mat_eq (table_4_2_A (k * v) s) (scale_matrix k (table_4_2_A v s)).
Proof.
  unfold table_4_2_A, scale_matrix, Qdiv. cbv zeta. cbn [map].
  repeat constructor; ring.
Qed.

Lemma symmetric_B_scale (k v : Q) (s : SymmetricData) :
  mat_eq (symmetric_B (k * v) s) (scale_matrix k (symmetric_B v s)).
Proof.
  unfold symmetric_B, scale_matrix, Qdiv. cbv zeta. cbn [map].
  repeat constructor; ring.
Qed.

(** X3: the symmetric model is linear in the airspeed.  For a block with
    [c_bar], [mu_c_cz_a] and [mu_c_ky_2] nonzero, building at airspeed
    [k * v] gives [k] times the matrices built at airspeed [v], entry by
    entry, for [A] and for [B]. *)
Theorem symmetric_model_linear_in_airspeed (data : AircraftData)
    (s : SymmetricData) (k : Q) :
  symmetric data = Some s ->
  ~ c_bar s == 0 -> ~ mu_c_cz_a s == 0 -> ~ mu_c_ky_2 s == 0 ->
  exists A B A' B',
    value (Symmetric.build_a data) = Ok A
    /\ value (Symmetric.build_b data) = Ok B
    /\ value (Symmetric.build_a (with_v data (k * v data))) = Ok A'
    /\ value (Symmetric.build_b (with_v data (k * v data))) = Ok B'
    /\ mat_eq A' (scale_matrix k A)
    /\ mat_eq B' (scale_matrix k B).
Proof.
  intros Hs Hc Ha Hk.
  destruct (symmetric_build_a_run data s Hs Hc Ha Hk) as (A & HA & HT & _).
  destruct (symmetric_build_a_run (with_v data (k * v data)) s Hs Hc Ha Hk)
    as (A' & HA' & HT' & _).
  pose proof (symmetric_build_b_closed data s 0%nat Hs Hc Ha Hk) as HB.
  pose proof (symmetric_build_b_closed (with_v data (k * v data)) s 0%nat
                Hs Hc Ha Hk) as HB'.
  exists A, (symmetric_B (v data) s), A', (symmetric_B (k * v data) s).
  split; [exact (run_value _ _ _ HA)|].
  split; [exact (run_value _ _ _ HB)|].
  split; [exact (run_value _ _ _ HA')|].
  split; [exact (run_value _ _ _ HB')|].
  split; [|apply symmetric_B_scale].
  cbn [with_v v] in HT'.
  eapply mat_eq_trans; [exact HT'|].
  eapply mat_eq_trans; [apply table_4_2_A_scale|].
  apply scale_matrix_eq. now apply mat_eq_sym.
Qed.

Lemma symmetric_model_linear_in_airspeed_witness :
  exists A B A' B',
    value (Symmetric.build_a data_sample) = Ok A
    /\ value (Symmetric.build_b data_sample) = Ok B
    /\ value (Symmetric.build_a (with_v data_sample (2 * v data_sample)))
       = Ok A'
    /\ value (Symmetric.build_b (with_v data_sample (2 * v data_sample)))
       = Ok B'
    /\ mat_eq A' (scale_matrix 2 A)
    /\ mat_eq B' (scale_matrix 2 B).
Proof.
  apply (symmetric_model_linear_in_airspeed data_sample sym_sample 2);
    [reflexivity | q_neq | q_neq | q_neq].
Defined.

(** ** Builders on a description without their block *)

(** X4: on a description whose symmetric block is absent, both symmetric
    matrix builders and the symmetric model constructor raise
    [AttributeError] before any division; likewise for the asymmetric
    ones when the asymmetric block is absent.  The base class is never
    reached. *)
Theorem builders_without_block (L : ControlLib) (data : AircraftData) :
  (symmetric data = None ->
   run (Symmetric.build_a data) = (Raise AttributeError, 0%nat)
   /\ run (Symmetric.build_b data) = (Raise AttributeError, 0%nat)
   /\ run (Symmetric__init__ L data) = (Raise AttributeError, 0%nat))
  /\
  (asymmetric data = None ->
   run (Asymmetric.build_a data) = (Raise AttributeError, 0%nat)
   /\ run (Asymmetric.build_b data) = (Raise AttributeError, 0%nat)
   /\ run (Asymmetric__init__ L data) = (Raise AttributeError, 0%nat)).
Proof.
  split; intros H.
  - assert (Ha : run (Symmetric.build_a data) = (Raise AttributeError, 0%nat))
      by (unfold run, Symmetric.build_a; now rewrite H).
    split; [exact Ha|]. split.
    + unfold run, Symmetric.build_b. now rewrite H.
    + unfold Symmetric__init__. cbv zeta. now apply bind_raise.
  - assert (Ha : run (Asymmetric.build_a data) = (Raise AttributeError, 0%nat))
      by (unfold run, Asymmetric.build_a; now rewrite H).
    split; [exact Ha|]. split.
    + unfold run, Asymmetric.build_b. now rewrite H.
    + unfold Asymmetric__init__. cbv zeta. now apply bind_raise.
Qed.

Lemma builders_without_block_witness :
  run (Symmetric.build_a data_asym_only) = (Raise AttributeError, 0%nat)
  /\ run (Symmetric.build_b data_asym_only) = (Raise AttributeError, 0%nat)
  /\ run (Symmetric__init__ rejecting data_asym_only)
     = (Raise AttributeError, 0%nat).
Proof.
  apply (proj1 (builders_without_block rejecting data_asym_only)).
  reflexivity.
Defined.

(** ** Asymmetric builders: failure and airspeed *)

Lemma asymmetric_build_a_no_span (data : AircraftData) (s : AsymmetricData) :
  asymmetric data = Some s -> b s == 0 ->
  exists n, run (Asymmetric.build_a data) = (Raise ZeroDivisionError, n).
Proof.
  intros Hs H. unfold run, Asymmetric.build_a. rewrite Hs.
  cbv beta iota zeta delta [bind attr ret]. fail_or_divide.
Qed.

(** X5: in the matrix [Asymmetric.build_a] returns, the airspeed enters
    the [beta] row and the entry [lb] only.  Two descriptions with the
    same asymmetric block ([b] and [mu_b_k] nonzero) at any two airspeeds
    have the same [phi] row, the same [r] row, and the same last three
    entries [0, lp, lr] of the [p] row. *)
Theorem asymmetric_rows_ignore_airspeed (d1 d2 : AircraftData)
    (s : AsymmetricData) :
  asymmetric d1 = Some s -> asymmetric d2 = Some s ->
  ~ b s == 0 -> ~ mu_b_k s == 0 ->
  exists A1 A2,
    value (Asymmetric.build_a d1) = Ok A1
    /\ value (Asymmetric.build_a d2) = Ok A2
    /\ nth 1 A1 [] = nth 1 A2 []
    /\ nth 3 A1 [] = nth 3 A2 []
    /\ skipn 1 (nth 2 A1 []) = skipn 1 (nth 2 A2 []).
Proof.
  intros H1 H2 Hb Hk.
  pose proof (asymmetric_build_a_run d1 s H1 Hb Hk) as E1.
  pose proof (asymmetric_build_a_run d2 s H2 Hb Hk) as E2.
  cbv zeta in E1, E2.
  eexists. eexists.
  split; [exact (run_value _ _ _ E1)|].
  split; [exact (run_value _ _ _ E2)|].
  repeat split.
Qed.

Lemma asymmetric_rows_ignore_airspeed_witness :
  exists A1 A2,
    value (Asymmetric.build_a data_sample) = Ok A1
    /\ value (Asymmetric.build_a data_fast) = Ok A2
    /\ nth 1 A1 [] = nth 1 A2 []
    /\ nth 3 A1 [] = nth 3 A2 []
    /\ skipn 1 (nth 2 A1 []) = skipn 1 (nth 2 A2 []).
Proof.
  apply (asymmetric_rows_ignore_airspeed data_sample data_fast asym_sample);
    [reflexivity | reflexivity | q_neq | q_neq].
Defined.

(** X6: on a description with an asymmetric block, [Asymmetric.build_b]
    returns its matrix exactly when [mu_b_k] is nonzero, and
    [Asymmetric.build_a] exactly when [mu_b_k] and the span [b] are
    nonzero; in every other case the builder raises [ZeroDivisionError].
    With a zero span and a nonzero [mu_b_k], [build_b] returns and
    [build_a] raises. *)
Theorem asymmetric_builders_dichotomy (data : AircraftData)
    (s : AsymmetricData) :
  asymmetric data = Some s ->
  ((~ mu_b_k s == 0
    /\ value (Asymmetric.build_b data) = Ok (source_B (v data) s))
   \/ (mu_b_k s == 0
       /\ value (Asymmetric.build_b data) = Raise ZeroDivisionError))
  /\
  ((~ b s == 0 /\ ~ mu_b_k s == 0
    /\ exists A, value (Asymmetric.build_a data) = Ok A)
   \/ ((b s == 0 \/ mu_b_k s == 0)
       /\ value (Asymmetric.build_a data) = Raise ZeroDivisionError)).
Proof.
  intros Hs. destruct (Qeq_dec (mu_b_k s) 0) as [Hk | Hk].
  - destruct (asymmetric_build_a_singular data s Hs Hk) as [n Hn].
    destruct (asymmetric_build_b_singular data s Hs Hk) as [m Hm].
    split; right.
    + split; [exact Hk | exact (run_value _ _ _ Hm)].
    + split; [now right | exact (run_value _ _ _ Hn)].
  - split.
    + left. split; [exact Hk|].
      exact (run_value _ _ _
               (asymmetric_build_b_run data s 0%nat Hs Hk (mu_b_nonzero s Hk))).
    + destruct (Qeq_dec (b s) 0) as [Hb | Hb].
      * right. split; [now left|].
        destruct (asymmetric_build_a_no_span data s Hs Hb) as [n Hn].
        exact (run_value _ _ _ Hn).
      * left. split; [exact Hb|]. split; [exact Hk|].
        pose proof (asymmetric_build_a_run data s Hs Hb Hk) as H.
        cbv zeta in H. eexists. exact (run_value _ _ _ H).
Qed.

Lemma asymmetric_builders_dichotomy_witness :
  ((~ mu_b_k asym_zero_span == 0
    /\ value (Asymmetric.build_b data_zero_span)
       = Ok (source_B (v data_zero_span) asym_zero_span))
   \/ (mu_b_k asym_zero_span == 0
       /\ value (Asymmetric.build_b data_zero_span)
          = Raise ZeroDivisionError))
  /\
  ((~ b asym_zero_span == 0 /\ ~ mu_b_k asym_zero_span == 0
    /\ exists A, value (Asymmetric.build_a data_zero_span) = Ok A)
   \/ ((b asym_zero_span == 0 \/ mu_b_k asym_zero_span == 0)
       /\ value (Asymmetric.build_a data_zero_span)
          = Raise ZeroDivisionError)).
Proof.
  apply (asymmetric_builders_dichotomy data_zero_span asym_zero_span).
  reflexivity.
Defined.

Lemma source_B_scale (k v : Q) (s : AsymmetricData) :
  mat_eq (source_B (k * v) s) (scale_matrix k (source_B v s)).
Proof.
  unfold source_B, scale_matrix, Qdiv. cbv zeta. cbn [map].
  repeat constructor; ring.
Qed.

(** X7: the input matrix of the asymmetric model is linear in the
    airspeed and does not read the span: for a block with [mu_b_k]
    nonzero, [Asymmetric.build_b] at airspeed [k * v] returns [k] times
    the matrix it returns at airspeed [v], entry by entry. *)
Theorem asymmetric_build_b_linear_in_airspeed (data : AircraftData)
    (s : AsymmetricData) (k : Q) :
  asymmetric data = Some s ->
  ~ mu_b_k s == 0 ->
  exists B B',
    value (Asymmetric.build_b data) = Ok B
    /\ value (Asymmetric.build_b (with_v data (k * v data))) = Ok B'
    /\ mat_eq B' (scale_matrix k B).
Proof.
  intros Hs Hk. pose proof (mu_b_nonzero s Hk) as Hb.
  exists (source_B (v data) s), (source_B (k * v data) s).
  split; [exact (run_value _ _ _ (asymmetric_build_b_run data s 0%nat Hs Hk Hb))|].
  split; [|apply source_B_scale].
  exact (run_value _ _ _
           (asymmetric_build_b_run (with_v data (k * v data)) s 0%nat Hs Hk Hb)).
Qed.

Lemma asymmetric_build_b_linear_in_airspeed_witness :
  exists B B',
    value (Asymmetric.build_b data_zero_span) = Ok B
    /\ value (Asymmetric.build_b
                (with_v data_zero_span (3 * v data_zero_span))) = Ok B'
    /\ mat_eq B' (scale_matrix 3 B).
Proof.
  apply (asymmetric_build_b_linear_in_airspeed data_zero_span asym_zero_span 3);
    [reflexivity | q_neq].
Defined.

(** ** State-space construction: failures *)

(** X8: [StateSpace.__init__] fails in two ways only.  When [b] has no
    second axis it raises [IndexError] whatever the base class is; when
    [b] has one, every exception it raises is the exception of one of the
    four calls to the base class, and the first call that fails decides.
    No division is carried out. *)
Theorem StateSpace_init_failures (L : ControlLib) (a b : Matrix)
    (x_names u_names : list string) :
  (b = [] ->
   value (StateSpace.__init__ L a b x_names u_names) = Raise IndexError)
  /\
  (forall e, value (StateSpace.__init__ L a b x_names u_names) = Raise e ->
     (b = [] /\ e = IndexError)
     \/ exists row rest, b = row :: rest /\
          let c := eye (shape0 a) in
          let d := zeros (shape0 a) (List.length row) in
          ct_init L a b c d = Raise e
          \/ exists s0, ct_init L a b c d = Ok s0 /\
               (set_inputs L s0 u_names = Raise e
                \/ exists s1, set_inputs L s0 u_names = Ok s1 /\
                     (set_outputs L s1 x_names = Raise e
                      \/ exists s2, set_outputs L s1 x_names = Ok s2 /\
                           set_states L s2 x_names = Raise e)))
  /\ divisions (StateSpace.__init__ L a b x_names u_names) = 0%nat.
Proof.
  split; [intros ->; reflexivity|]. split.
  - intros e. unfold value, run, StateSpace.__init__, shape1. cbv zeta.
    destruct b as [|row rest]; cbn.
    { intros H. left. split; [reflexivity | now injection H]. }
    intros H. right. exists row, rest. split; [reflexivity|].
    unfold bind, ret, lift in H. cbv zeta.
    destruct (ct_init L a (row :: rest) _ _) as [s0|e0] eqn:E0;
      [|cbn in H; injection H as ->; now left].
    right. exists s0. split; [reflexivity|].
    destruct (set_inputs L s0 u_names) as [s1|e1] eqn:E1;
      [|cbn in H; injection H as ->; now left].
    right. exists s1. split; [reflexivity|].
    destruct (set_outputs L s1 x_names) as [s2|e2] eqn:E2;
      [|cbn in H; injection H as ->; now left].
    right. exists s2. split; [reflexivity|].
    destruct (set_states L s2 x_names) as [s3|e3] eqn:E3;
      [cbn in H; discriminate H | cbn in H; now injection H as ->].
  - unfold divisions, run, StateSpace.__init__, shape1. cbv zeta.
    destruct b as [|row rest]; [reflexivity|].
    unfold bind, ret, lift.
    destruct (ct_init L a (row :: rest) _ _) as [s0|]; [|reflexivity].
    destruct (set_inputs L s0 u_names) as [s1|]; [|reflexivity].
    destruct (set_outputs L s1 x_names) as [s2|]; [|reflexivity].
    destruct (set_states L s2 x_names) as [s3|]; reflexivity.
Qed.

Lemma StateSpace_init_failures_witness :
  value (StateSpace.__init__ accepting a_dup [] x_dup u_dup) = Raise IndexError.
Proof.
  apply (proj1 (StateSpace_init_failures accepting a_dup [] x_dup u_dup)).
  reflexivity.
Defined.

(** ** Outcomes do not depend on earlier divisions *)

Lemma steady_ret {A} (a : A) : steady (ret a).
Proof. intros n. reflexivity. Qed.

Lemma steady_raise {A} (e : exn) : steady (@raise A e).
Proof. intros n. reflexivity. Qed.

Lemma steady_lift {A} (r : result A) : steady (lift r).
Proof. intros n. reflexivity. Qed.

Lemma steady_attr {A} (o : option A) : steady (attr o).
Proof. destruct o; [apply steady_ret | apply steady_raise]. Qed.

Lemma steady_truediv (x y : Q) : steady (x // y).
Proof. intros n. unfold truediv. now destruct (Qeq_bool y 0). Qed.

Lemma steady_bind {A B} (m : py A) (f : A -> py B) :
  steady m -> (forall a, steady (f a)) -> steady (bind m f).
Proof.
  intros Hm Hf n. unfold bind. specialize (Hm n).
  destruct (m n) as [[a | e] k], (m 0%nat) as [[a0 | e0] k0];
    cbn in Hm; try discriminate Hm.
  - injection Hm as <-. now rewrite (Hf a k), (Hf a k0).
  - injection Hm as <-. reflexivity.
Qed.

(** Breaks a computation down into its divisions and returns. *)
Ltac steady :=
  cbv zeta;
  repeat first
    [ apply steady_truediv | apply steady_ret | apply steady_raise
    | apply steady_lift | apply steady_attr
    | apply steady_bind; [ | intro ] ].

Lemma steady_symmetric_build_a (data : AircraftData) :
  steady (Symmetric.build_a data).
Proof. unfold Symmetric.build_a. steady. Qed.

Lemma steady_symmetric_build_b (data : AircraftData) :
  steady (Symmetric.build_b data).
Proof. unfold Symmetric.build_b. steady. Qed.

Lemma steady_asymmetric_build_a (data : AircraftData) :
  steady (Asymmetric.build_a data).
Proof. unfold Asymmetric.build_a. steady. Qed.

Lemma steady_asymmetric_build_b (data : AircraftData) :
  steady (Asymmetric.build_b data).
Proof. unfold Asymmetric.build_b. steady. Qed.

Lemma steady_StateSpace_init (L : ControlLib) (a b : Matrix)
    (x_names u_names : list string) :
  steady (StateSpace.__init__ L a b x_names u_names).
Proof.
  unfold StateSpace.__init__, shape1. destruct b; steady.
Qed.

Lemma steady_Symmetric_init (L : ControlLib) (data : AircraftData) :
  steady (Symmetric__init__ L data).
Proof.
  unfold Symmetric__init__. cbv zeta.
  apply steady_bind; [apply steady_symmetric_build_a | intro].
  apply steady_bind; [apply steady_symmetric_build_b | intro].
  apply steady_StateSpace_init.
Qed.

Lemma steady_Asymmetric_init (L : ControlLib) (data : AircraftData) :
  steady (Asymmetric__init__ L data).
Proof.
  unfold Asymmetric__init__. cbv zeta.
  apply steady_bind; [apply steady_asymmetric_build_a | intro].
  apply steady_bind; [apply steady_asymmetric_build_b | intro].
  apply steady_StateSpace_init.
Qed.

Lemma value_bind_raise {A B} (m : py A) (f : A -> py B) (e : exn) :
  value m = Raise e -> value (bind m f) = Raise e.
Proof.
  unfold value, run, bind. destruct (m 0%nat) as [[a | e'] n]; cbn; congruence.
Qed.

Lemma value_bind_ok {A B} (m : py A) (f : A -> py B) (a : A) :
  value m = Ok a -> steady (f a) -> value (bind m f) = value (f a).
Proof.
  unfold value, run, bind. intros H Hf.
  destruct (m 0%nat) as [[a' | e'] n]; cbn in H; [|discriminate H].
  injection H as ->. apply Hf.
Qed.

Lemma value_bind_inv {A B} (m : py A) (f : A -> py B) (r : B) :
  (forall a, steady (f a)) ->
  value (bind m f) = Ok r -> exists a, value m = Ok a /\ value (f a) = Ok r.
Proof.
  unfold value, run, bind. intros Hf H.
  destruct (m 0%nat) as [[a | e] n]; cbn in *; [|discriminate H].
  exists a. split; [reflexivity|]. now rewrite <- (Hf a n).
Qed.

(** ** Aircraft: which models are built *)

(** The conditional construction of one submodel in [Aircraft.__init__]. *)
Lemma submodel_steady {A M} (block : option A) (ctor : py M) :
  steady ctor ->
  steady (if Aircraft.truthy block
          then s <- ctor ;; ret (Some s)
          else ret None).
Proof.
  intros H. destruct block; cbn [Aircraft.truthy]; [|apply steady_ret].
  apply steady_bind; [exact H | intro; apply steady_ret].
Qed.

Lemma submodel_built {A M} (block : option A) (ctor : py M)
    (model : option M) :
  value (if Aircraft.truthy block
         then s <- ctor ;; ret (Some s)
         else ret None) = Ok model
  <-> built block ctor model.
Proof.
  unfold built. destruct block as [x|]; cbn [Aircraft.truthy].
  - unfold value, run, bind, ret.
    destruct (ctor 0%nat) as [[m | e] n]; cbn; split.
    + intros H. injection H as <-. now exists m.
    + intros (m' & -> & H). now injection H as ->.
    + discriminate.
    + intros (m' & _ & H). discriminate H.
  - unfold value, run, ret. cbn. split; [intros H; now injection H | now intros ->].
Qed.

Lemma submodel_raises {A M} (block : option A) (x : A) (ctor : py M)
    (e : exn) :
  block = Some x -> value ctor = Raise e ->
  value (if Aircraft.truthy block
         then s <- ctor ;; ret (Some s)
         else ret (@None M)) = Raise e.
Proof.
  intros -> H. cbn [Aircraft.truthy]. now apply value_bind_raise.
Qed.

(** The constructor of [Aircraft] seen through its outcome. *)
Lemma Aircraft_init_value (L : ControlLib)
    (load_aircraft : string -> py AircraftData) (filename : string)
    (data : AircraftData) :
  value (load_aircraft filename) = Ok data ->
  value (Aircraft.__init__ L load_aircraft filename)
  = value (sym <- (if Aircraft.truthy (symmetric data)
                   then s <- Symmetric__init__ L data ;; ret (Some s)
                   else ret None) ;;
           asym <- (if Aircraft.truthy (asymmetric data)
                    then s <- Asymmetric__init__ L data ;; ret (Some s)
                    else ret None) ;;
           ret (Aircraft.mk filename data sym asym)).
Proof.
  intros H. unfold Aircraft.__init__.
  rewrite (value_bind_ok _ _ data H); [reflexivity|].
  cbv zeta. apply steady_bind.
  - apply submodel_steady, steady_Symmetric_init.
  - intros sym. apply steady_bind; [|intro; apply steady_ret].
    apply submodel_steady, steady_Asymmetric_init.
Qed.

Lemma Aircraft_init_ok (L : ControlLib)
    (load_aircraft : string -> py AircraftData) (filename : string)
    (ac : Aircraft.t L) :
  value (Aircraft.__init__ L load_aircraft filename) = Ok ac <->
  exists data,
    value (load_aircraft filename) = Ok data
    /\ ac = Aircraft.mk filename data (Aircraft.sym ac) (Aircraft.asym ac)
    /\ built (symmetric data) (Symmetric__init__ L data) (Aircraft.sym ac)
    /\ built (asymmetric data) (Asymmetric__init__ L data) (Aircraft.asym ac).
Proof.
  split.
  - intros H.
    destruct (value (load_aircraft filename)) as [data | e] eqn:Hl;
      [|unfold Aircraft.__init__ in H;
        rewrite (value_bind_raise _ _ e Hl) in H; discriminate H].
    rewrite (Aircraft_init_value L _ _ data Hl) in H.
    apply value_bind_inv in H.
    2:{ intros sym. apply steady_bind; [|intro; apply steady_ret].
        apply submodel_steady, steady_Asymmetric_init. }
    destruct H as (sym & Hsym & H).
    apply value_bind_inv in H; [|intro; apply steady_ret].
    destruct H as (asym & Hasym & H).
    unfold value, run, ret in H. cbn in H. injection H as <-. cbn.
    exists data. split; [reflexivity|]. split; [reflexivity|].
    split; [now apply submodel_built | now apply submodel_built].
  - intros (data & Hl & Hac & Hs & Ha).
    rewrite (Aircraft_init_value L _ _ data Hl).
    apply submodel_built in Hs. apply submodel_built in Ha.
    rewrite (value_bind_ok _ _ _ Hs).
    2:{ apply steady_bind; [|intro; apply steady_ret].
        apply submodel_steady, steady_Asymmetric_init. }
    rewrite (value_bind_ok _ _ _ Ha); [|apply steady_ret].
    unfold value, run, ret. cbn. now rewrite Hac at 3.
Qed.

(** X9: [Aircraft.__init__] returns an instance exactly when the loader
    returns a description and every data block that is present yields its
    model.  The instance then holds the file name and the description as
    given, a symmetric model if and only if the symmetric block is
    present, and an asymmetric model if and only if the asymmetric block
    is present; each model is the one its constructor returns. *)
Theorem Aircraft_init_builds_present_blocks (L : ControlLib)
    (load_aircraft : string -> py AircraftData) (filename : string)
    (ac : Aircraft.t L) :
  value (Aircraft.__init__ L load_aircraft filename) = Ok ac <->
  exists data,
    value (load_aircraft filename) = Ok data
    /\ Aircraft.filename ac = filename
    /\ Aircraft.data ac = data
    /\ built (symmetric data) (Symmetric__init__ L data) (Aircraft.sym ac)
    /\ built (asymmetric data) (Asymmetric__init__ L data) (Aircraft.asym ac).
Proof.
  rewrite Aircraft_init_ok. split.
  - intros (data & Hl & Hac & Hs & Ha). exists data.
    split; [exact Hl|]. rewrite Hac. cbn. now repeat split.
  - intros (data & Hl & Hf & Hd & Hs & Ha). exists data.
    split; [exact Hl|]. split; [|now split].
    destruct ac as [f d s a]. cbn in *. now subst.
Qed.

Lemma Aircraft_init_builds_present_blocks_witness :
  exists ac,
    value (Aircraft.__init__ accepting load_asym_only "citation.yaml") = Ok ac
    /\ Aircraft.sym ac = None
    /\ exists m, Aircraft.asym ac = Some m.
Proof.
  destruct (value (Asymmetric__init__ accepting data_asym_only))
    as [m | e] eqn:E; [|vm_compute in E; discriminate E].
  exists (Aircraft.mk "citation.yaml" data_asym_only None (Some m)).
  split; [|split; [reflexivity | now exists m]].
  apply (proj2 (Aircraft_init_builds_present_blocks accepting load_asym_only
                  "citation.yaml" _)).
  exists data_asym_only. repeat split. now exists m.
Defined.

(** X10: in [Aircraft.__init__] the first step that fails decides.  An
    exception of the loader is the exception of the constructor; so is an
    exception of the symmetric model when the symmetric block is present,
    whatever the asymmetric block looks like; so is an exception of the
    asymmetric model when the symmetric part went through. *)
Theorem Aircraft_init_first_failure (L : ControlLib)
    (load_aircraft : string -> py AircraftData) (filename : string)
    (e : exn) :
  (value (load_aircraft filename) = Raise e ->
   value (Aircraft.__init__ L load_aircraft filename) = Raise e)
  /\
  (forall data s,
     value (load_aircraft filename) = Ok data ->
     symmetric data = Some s ->
     value (Symmetric__init__ L data) = Raise e ->
     value (Aircraft.__init__ L load_aircraft filename) = Raise e)
  /\
  (forall data s sym,
     value (load_aircraft filename) = Ok data ->
     built (symmetric data) (Symmetric__init__ L data) sym ->
     asymmetric data = Some s ->
     value (Asymmetric__init__ L data) = Raise e ->
     value (Aircraft.__init__ L load_aircraft filename) = Raise e).
Proof.
  split; [apply value_bind_raise|]. split.
  - intros data s Hl Hs He. rewrite (Aircraft_init_value L _ _ data Hl).
    apply value_bind_raise. exact (submodel_raises _ s _ e Hs He).
  - intros data s sym Hl Hsym Hs He.
    rewrite (Aircraft_init_value L _ _ data Hl).
    apply submodel_built in Hsym. rewrite (value_bind_ok _ _ _ Hsym).
    2:{ apply steady_bind; [|intro; apply steady_ret].
        apply submodel_steady, steady_Asymmetric_init. }
    apply value_bind_raise. exact (submodel_raises _ s _ e Hs He).
Qed.

Lemma Aircraft_init_first_failure_witness :
  value (Aircraft.__init__ accepting load_missing "citation.yaml")
  = Raise (ValueError "not found").
Proof.
  apply (proj1 (Aircraft_init_first_failure accepting load_missing
                  "citation.yaml" (ValueError "not found"))).
  reflexivity.
Defined.

(** X11: no partial aircraft.  When the symmetric block has a zero
    [c_bar], [mu_c_cz_a] or [mu_c_ky_2], [Aircraft.__init__] raises
    [ZeroDivisionError] whatever the asymmetric block and the base class
    are; when the symmetric block is absent and the asymmetric block has a
    zero [b] or [mu_b_k], it raises [ZeroDivisionError] as well. *)
Theorem Aircraft_init_zero_denominator (L : ControlLib)
    (load_aircraft : string -> py AircraftData) (filename : string)
    (data : AircraftData) :
  value (load_aircraft filename) = Ok data ->
  (forall s, symmetric data = Some s ->
     c_bar s == 0 \/ mu_c_cz_a s == 0 \/ mu_c_ky_2 s == 0 ->
     value (Aircraft.__init__ L load_aircraft filename)
     = Raise ZeroDivisionError)
  /\
  (forall s, symmetric data = None -> asymmetric data = Some s ->
     b s == 0 \/ mu_b_k s == 0 ->
     value (Aircraft.__init__ L load_aircraft filename)
     = Raise ZeroDivisionError).
Proof.
  intros Hl. rewrite (Aircraft_init_value L _ _ data Hl). split.
  - intros s Hs H. apply value_bind_raise.
    apply (submodel_raises _ s _ _ Hs).
    assert (E : exists n, run (Symmetric.build_a data)
                          = (Raise ZeroDivisionError, n)).
    { destruct H as [H | H];
        [now apply (symmetric_build_a_no_chord data s)
        | now apply (symmetric_build_a_singular data s)]. }
    destruct E as [n E]. exact (symmetric_init_raises L data _ n E).
  - intros s Hn Hs H. rewrite Hn. cbn [Aircraft.truthy].
    rewrite (value_bind_ok (ret (@None (StateSpace.t L))) _ None eq_refl).
    2:{ apply steady_bind; [|intro; apply steady_ret].
        apply submodel_steady, steady_Asymmetric_init. }
    apply value_bind_raise. apply (submodel_raises _ s _ _ Hs).
    assert (E : exists n, run (Asymmetric.build_a data)
                          = (Raise ZeroDivisionError, n)).
    { destruct H as [H | H];
        [now apply (asymmetric_build_a_no_span data s)
        | now apply (asymmetric_build_a_singular data s)]. }
    destruct E as [n E]. exact (asymmetric_init_raises L data _ n E).
Qed.

Lemma Aircraft_init_zero_denominator_witness :
  value (Aircraft.__init__ accepting load_half_singular "citation.yaml")
  = Raise ZeroDivisionError.
Proof.
  apply (proj1 (Aircraft_init_zero_denominator accepting load_half_singular
                  "citation.yaml" data_half_singular eq_refl) sym_singular).
  - reflexivity.
  - right. left. reflexivity.
Defined.

(** X12: what [Aircraft.__rich_repr__] yields for a constructed instance:
    the file name the constructor was given, and for each of the two
    models whether its data block was present in the loaded
    description. *)
Theorem Aircraft_repr_reflects_blocks (L : ControlLib)
    (load_aircraft : string -> py AircraftData) (filename : string)
    (ac : Aircraft.t L) :
  value (Aircraft.__init__ L load_aircraft filename) = Ok ac ->
  Aircraft__rich_repr__ ac
  = [ ("Aircraft"%string, RStr filename);
      ("Symmetric"%string,
       RBool (Aircraft.truthy (symmetric (Aircraft.data ac))));
      ("Asymmetric"%string,
       RBool (Aircraft.truthy (asymmetric (Aircraft.data ac)))) ].
Proof.
  intros H. apply Aircraft_init_ok in H.
  destruct H as (data & _ & Hac & Hs & Ha).
  rewrite Hac. unfold Aircraft__rich_repr__. cbn.
  unfold built in Hs, Ha.
  destruct (symmetric data), (asymmetric data);
    repeat match goal with
           | H : exists _, _ |- _ => destruct H as (? & -> & _)
           | H : _ = None |- _ => rewrite H
           end; reflexivity.
Qed.

Lemma Aircraft_repr_reflects_blocks_witness :
  Aircraft__rich_repr__
    (Aircraft.mk (L := accepting) "citation.yaml" data_empty None None)
  = [ ("Aircraft"%string, RStr "citation.yaml");
      ("Symmetric"%string, RBool false);
      ("Asymmetric"%string, RBool false) ].
Proof.
  apply (Aircraft_repr_reflects_blocks accepting load_empty "citation.yaml"
           (Aircraft.mk "citation.yaml" data_empty None None)).
  reflexivity.
Defined.

(** ** Rewards: edge cases and the smoothness term *)

(** X13: before any squared error is recorded both reward functions raise
    [IndexError], whatever the reward scale and the actions are. *)
Theorem rewards_need_an_error (w : Env.t) :
  Env.sq_error w = [] ->
  value (score "sq_error" w) = Raise IndexError
  /\ value (score "sq_error_da" w) = Raise IndexError.
Proof.
  intros H. unfold value, run, score, get_reward.
  cbn [String.eqb Ascii.eqb Bool.eqb].
  unfold bind, ret, Rewards.sq_error, Rewards.sq_error_da. cbv zeta.
  unfold bind. rewrite H. split; reflexivity.
Qed.

Lemma rewards_need_an_error_witness :
  value (score "sq_error" window_fresh) = Raise IndexError
  /\ value (score "sq_error_da" window_fresh) = Raise IndexError.
Proof.
  apply (rewards_need_an_error window_fresh). reflexivity.
Defined.

(** X14: on a window whose last squared error is [e] and whose last two
    actions [a1], [a2] have one length, [sq_error_da] returns
    [-(e + sum_i (a2_i - a1_i)^2)]: only the last error and the last two
    actions count, and no division is carried out. *)
Theorem sq_error_da_closed_form (w : Env.t) (hist : list Q) (e : Q)
    (pre : list (list Q)) (a1 a2 : list Q) :
  Env.sq_error w = hist ++ [e] ->
  Env.actions w = pre ++ [a1; a2] ->
  List.length a1 = List.length a2 ->
  value (score "sq_error_da" w) = Ok (- (e + sum_sq_diff a2 a1))
  /\ divisions (score "sq_error_da" w) = 0%nat.
Proof.
  intros H Ha Hl.
  pose proof (sq_error_da_value w hist e pre a1 a2 H Ha Hl) as E.
  split; [exact (run_value _ _ _ E)|]. unfold divisions. now rewrite E.
Qed.

Lemma sq_error_da_closed_form_witness :
  value (score "sq_error_da" window_moving)
  = Ok (- (1 + sum_sq_diff [2; 5] [0; 1]))
  /\ divisions (score "sq_error_da" window_moving) = 0%nat.
Proof.
  apply (sq_error_da_closed_form window_moving [3] 1 [[5]] [0; 1] [2; 5]);
    reflexivity.
Defined.

(** X15: with fewer than two recorded actions the smoothness term is
    empty: [sq_error_da] returns the negated last squared error. *)
Theorem sq_error_da_few_actions (w : Env.t) (hist : list Q) (e : Q) :
  Env.sq_error w = hist ++ [e] ->
  (List.length (Env.actions w) < 2)%nat ->
  exists r, value (score "sq_error_da" w) = Ok r /\ r == - e.
Proof.
  intros H Hl. exists (- (e + 0)). split; [|ring].
  unfold value, run, score, get_reward. cbn [String.eqb Ascii.eqb Bool.eqb].
  unfold bind, ret, Rewards.sq_error_da. rewrite H, item_last_snoc.
  unfold bind, ret.
  destruct (Env.actions w) as [|a [|a' l]]; [reflexivity | reflexivity|].
  cbn in Hl. lia.
Qed.

Lemma sq_error_da_few_actions_witness :
  exists r, value (score "sq_error_da" window_single) = Ok r /\ r == - 1.
Proof.
  apply (sq_error_da_few_actions window_single [3] 1);
    [reflexivity | cbn; lia].
Defined.

Lemma sum_sq_diff_swap (a1 a2 : list Q) :
  sum_sq_diff a2 a1 == sum_sq_diff a1 a2.
Proof.
  unfold sum_sq_diff. revert a2.
  induction a1 as [|x a1 IH]; intros [|y a2];
    cbn [combine map fold_right fst snd]; try reflexivity.
  rewrite IH. change ((y - x) ^ 2) with ((y - x) * (y - x)).
  change ((x - y) ^ 2) with ((x - y) * (x - y)). ring.
Qed.

(** X16: [sq_error_da] does not tell the order of the last two actions:
    two windows with the same last squared error whose last two actions
    are [a1], [a2] and [a2], [a1] get the same reward. *)
Theorem sq_error_da_symmetric (w w' : Env.t) (hist hist' : list Q) (e : Q)
    (pre pre' : list (list Q)) (a1 a2 : list Q) :
  Env.sq_error w = hist ++ [e] ->
  Env.sq_error w' = hist' ++ [e] ->
  Env.actions w = pre ++ [a1; a2] ->
  Env.actions w' = pre' ++ [a2; a1] ->
  List.length a1 = List.length a2 ->
  exists r r', value (score "sq_error_da" w) = Ok r
               /\ value (score "sq_error_da" w') = Ok r'
               /\ r == r'.
Proof.
  intros H H' Ha Ha' Hl.
  exists (- (e + sum_sq_diff a2 a1)), (- (e + sum_sq_diff a1 a2)).
  split; [exact (run_value _ _ _ (sq_error_da_value w hist e pre a1 a2 H Ha Hl))|].
  split.
  - exact (run_value _ _ _
             (sq_error_da_value w' hist' e pre' a2 a1 H' Ha' (eq_sym Hl))).
  - now rewrite sum_sq_diff_swap.
Qed.

Lemma sq_error_da_symmetric_witness :
  exists r r', value (score "sq_error_da" window_moving) = Ok r
               /\ value (score "sq_error_da" window_moving_back) = Ok r'
               /\ r == r'.
Proof.
  apply (sq_error_da_symmetric window_moving window_moving_back
           [3] [3] 1 [[5]] [[5]] [0; 1] [2; 5]); reflexivity.
Defined.

Lemma sum_sq_diff_same (a1 a2 : list Q) :
  Forall2 Qeq a1 a2 -> sum_sq_diff a2 a1 == 0.
Proof.
  unfold sum_sq_diff. intros H.
  induction H as [|x y a1 a2 Hxy _ IH]; cbn [combine map fold_right fst snd];
    [reflexivity|].
  rewrite IH. change ((y - x) ^ 2) with ((y - x) * (y - x)).
  rewrite Hxy. ring.
Qed.

(** X17: with a reward scale of one, the smoothness term can only lower
    the reward: on a window with two last actions of one length
    [sq_error_da] is at most [sq_error], and the two agree exactly when
    the last two actions are equal. *)
Theorem sq_error_da_below_sq_error (w : Env.t) (hist : list Q) (e : Q)
    (pre : list (list Q)) (a1 a2 : list Q) :
  Env.reward_scale w == 1 ->
  Env.sq_error w = hist ++ [e] ->
  Env.actions w = pre ++ [a1; a2] ->
  List.length a1 = List.length a2 ->
  exists r r', value (score "sq_error" w) = Ok r
               /\ value (score "sq_error_da" w) = Ok r'
               /\ r' <= r
               /\ (r' == r <-> Forall2 Qeq a1 a2).
Proof.
  intros Hs H Ha Hl.
  exists (- Env.reward_scale w * e), (- (e + sum_sq_diff a2 a1)).
  split; [exact (run_value _ _ _ (sq_error_value w hist e H))|].
  split; [exact (run_value _ _ _ (sq_error_da_value w hist e pre a1 a2 H Ha Hl))|].
  pose proof (sum_sq_diff_nonneg a2 a1) as Hnn.
  rewrite Hs. split; [lra|]. split.
  - intros E. apply sum_sq_diff_zero; [exact Hl | lra].
  - intros E. rewrite (sum_sq_diff_same a1 a2 E). ring.
Qed.

Lemma sq_error_da_below_sq_error_witness :
  exists r r', value (score "sq_error" window_unit) = Ok r
               /\ value (score "sq_error_da" window_unit) = Ok r'
               /\ r' <= r
               /\ (r' == r <-> Forall2 Qeq [0; 1] [2; 5]).
Proof.
  apply (sq_error_da_below_sq_error window_unit [3] 1 [[5]] [0; 1] [2; 5]);
    reflexivity.
Defined.

(** ** The output maps of a constructed model *)

Lemma nth_map_seq {A} (f : nat -> A) (n i : nat) (d : A) :
  (i < n)%nat -> nth i (map f (seq 0 n)) d = f i.
Proof.
  intros H. rewrite (nth_indep _ d (f 0%nat)) by now rewrite length_map, length_seq.
  rewrite (map_nth f (seq 0 n) 0%nat i). now rewrite seq_nth.
Qed.

Lemma eye_entry (n i j : nat) :
  (i < n)%nat -> (j < n)%nat ->
  nth j (nth i (eye n) []) 0 = if Nat.eqb i j then 1 else 0.
Proof.
  intros Hi Hj. unfold eye. rewrite nth_map_seq by exact Hi.
  now rewrite nth_map_seq by exact Hj.
Qed.

Lemma eye_shape (n : nat) : is_shape n n (eye n).
Proof.
  unfold is_shape, eye. split; [now rewrite length_map, length_seq|].
  apply Forall_forall. intros row Hin. apply in_map_iff in Hin.
  destruct Hin as (i & <- & _). now rewrite length_map, length_seq.
Qed.

Lemma zeros_shape (n m : nat) : is_shape n m (zeros n m).
Proof.
  unfold is_shape, zeros. split; [apply repeat_length|].
  apply Forall_forall. intros row Hin. apply repeat_spec in Hin. subst row.
  apply repeat_length.
Qed.

Lemma zeros_entry (n m : nat) (row : list Q) (x : Q) :
  In row (zeros n m) -> In x row -> x = 0.
Proof.
  unfold zeros. intros Hr Hx. apply repeat_spec in Hr. subst row.
  now apply repeat_spec in Hx.
Qed.

(** X18: in every model [StateSpace.__init__] returns, with [n] the number
    of rows of [a] and [m] the length of the first row of [b], the matrix
    [C] handed to the base class is [n] by [n] with one on the diagonal
    and zero elsewhere, and [D] is [n] by [m] with every entry zero. *)
Theorem StateSpace_output_maps (L : ControlLib) (a b : Matrix)
    (x_names u_names : list string) (ss : StateSpace.t L) :
  value (StateSpace.__init__ L a b x_names u_names) = Ok ss ->
  exists m,
    value (shape1 b) = Ok m
    /\ is_shape (shape0 a) (shape0 a) (StateSpace.C ss)
    /\ (forall i j, (i < shape0 a)%nat -> (j < shape0 a)%nat ->
          nth j (nth i (StateSpace.C ss) []) 0
          = if Nat.eqb i j then 1 else 0)
    /\ is_shape (shape0 a) m (StateSpace.D ss)
    /\ (forall row x, In row (StateSpace.D ss) -> In x row -> x = 0).
Proof.
  intros H. unfold value, run in H.
  destruct (StateSpace.__init__ L a b x_names u_names 0%nat) as [r k] eqn:E.
  cbn in H. subst r.
  destruct (StateSpace_init_ok L a b x_names u_names ss 0%nat k E)
    as (row & rest & -> & _ & Hss & _).
  exists (List.length row). split; [reflexivity|].
  rewrite Hss. cbn [StateSpace.C StateSpace.D].
  split; [apply eye_shape|]. split; [intros i j; apply eye_entry|].
  split; [apply zeros_shape | apply zeros_entry].
Qed.

Lemma StateSpace_output_maps_witness :
  exists m,
    value (shape1 b_dup) = Ok m
    /\ is_shape (shape0 a_dup) (shape0 a_dup) (eye 2)
    /\ (forall i j, (i < shape0 a_dup)%nat -> (j < shape0 a_dup)%nat ->
          nth j (nth i (eye 2) []) 0 = if Nat.eqb i j then 1 else 0)
    /\ is_shape (shape0 a_dup) m (zeros 2 1)
    /\ (forall row x, In row (zeros 2 1) -> In x row -> x = 0).
Proof.
  apply (StateSpace_output_maps accepting a_dup b_dup x_dup u_dup
           (StateSpace.mk (L := accepting) a_dup b_dup x_dup u_dup
              (eye 2) (zeros 2 1) tt)).
  reflexivity.
Defined.
